(** * Sessions, step-up login and the freshness check

    A shallow embedding of the authentication core of the starter:
    - the drizzle schema ([users], [passwords], [sessions], [verification]),
    - [app/utils/auth.server.ts] ([getUserId], [logout], [login], [signup],
      [verifyUserPassword]),
    - [app/utils/login.server.ts] ([handleNewSession], [handleVerification],
      [shouldRequestTwoFA]).

    Time is the number of milliseconds since the epoch, as [Date.now()]
    gives it; every clock reading and every generated uuid is an explicit
    argument of the function that asks for it.  The store is passed in and
    out explicitly.  [throw] is the [Thrown] outcome. *)

From stdpp Require Import base numbers strings list gmap.

Local Open Scope Z_scope.

(** ** JavaScript values held in a cookie session *)

Inductive JsValue :=
| JsString (s : string)
| JsNumber (n : Z)
| JsBool (b : bool)
| JsDate (t : Z).

Global Instance JsValue_eq_dec : EqDecision JsValue.
Proof. solve_decision. Defined.

(** [if (v)] on a value that is present. *)
Definition truthy (v : JsValue) : bool :=
  match v with
  | JsString s => negb (String.eqb s "")
  | JsNumber n => negb (n =? 0)
  | JsBool b => b
  | JsDate _ => true
  end.

(** [if (x)] where [x] may be [undefined]. *)
Definition truthy_opt (o : option JsValue) : bool :=
  match o with
  | Some v => truthy v
  | None => false
  end.

(** The data of a cookie session: [session.get], [session.set] and
    [session.has] are lookup, insert and definedness on this map. *)
Abbreviation SessionData := (gmap string JsValue).

Definition session_get (s : SessionData) (key : string) : option JsValue :=
  s !! key.
Definition session_set (s : SessionData) (key : string) (v : JsValue)
  : SessionData := <[key := v]> s.
Definition session_has (s : SessionData) (key : string) : bool :=
  bool_decide (is_Some (s !! key)).

(** ** Requests, responses and the two cookie session storages *)

Inductive CookieName := AuthCookie | VerifyCookie.

Global Instance CookieName_eq_dec : EqDecision CookieName.
Proof. solve_decision. Defined.

(** A [set-cookie] header written by [commitSession] carries the session
    data and the optional [expires]; the one written by [destroySession]
    carries no data. *)
Inductive Header :=
| SetCookie (c : CookieName) (payload : option SessionData)
            (expires : option Z)
| OtherHeader (name value : string).

Record Request := mkRequest {
  url : string;
  authCookie : option SessionData;
  verifyCookie : option SessionData
}.

(** [storage.getSession(request.headers.get("cookie"))]: the data of the
    storage's cookie, or an empty session when the request has none. *)
Definition getSession (c : CookieName) (request : Request) : SessionData :=
  match c with
  | AuthCookie => default ∅ (authCookie request)
  | VerifyCookie => default ∅ (verifyCookie request)
  end.

(** [storage.getSession()] *)
Definition getSession_fresh : SessionData := ∅.

Definition commitSession (c : CookieName) (s : SessionData)
  (expires : option Z) : Header := SetCookie c (Some s) expires.

Definition destroySession (c : CookieName) : Header :=
  SetCookie c None (Some 0).

(** Only the headers of a [ResponseInit] are modelled. *)
Abbreviation ResponseInit := (list Header).

Record Response := mkResponse {
  location : string;
  headers : list Header
}.

Definition redirect (to : string) (init : ResponseInit) : Response :=
  mkResponse to init.

(** [combineHeaders] and [combineResponseInits] are helpers imported from
    [~/utils/misc]; they append the headers of their arguments in order,
    as [Headers.append] does. *)
Definition combineHeaders (a : list Header) (b : option (list Header))
  : list Header := a ++ default [] b.

Definition combineResponseInits (a : ResponseInit) (b : option ResponseInit)
  : ResponseInit := combineHeaders a b.

(** ** Outcomes *)

Inductive Exception :=
| ThrowRedirect (r : Response)
| InvariantError (msg : string)
| StoreError (msg : string).

Inductive Outcome (A : Type) :=
| Returned (a : A)
| Thrown (e : Exception).
Arguments Returned {A} a.
Arguments Thrown {A} e.

Global Instance Outcome_ret : MRet Outcome := fun A a => Returned a.
Global Instance Outcome_bind : MBind Outcome := fun A B k m =>
  match m with
  | Returned a => k a
  | Thrown e => Thrown e
  end.

Definition invariant (cond : bool) (msg : string) : Outcome unit :=
  if cond then Returned tt else Thrown (InvariantError msg).

(** ** The schema *)

Module users.
Record row := mk {
  id : string;
  email : string;
  name : option string;
  createdAt : Z;
  emailConfirmed : bool
}.
End users.

Module passwords.
Record row := mk {
  hash : string;
  userId : string
}.
End passwords.

Module sessions.
Record row := mk {
  id : string;
  expirationDate : Z;
  createdAt : Z;
  userId : string
}.
End sessions.

Module verification.
Record row := mk {
  id : string;
  createdAt : Z;
  type : string;
  target : string;
  secret : string;
  algorithm : string;
  digits : Z;
  period : Z;
  charSet : string;
  expiresAt : option Z
}.
End verification.

Global Instance users_row_eq_dec : EqDecision users.row.
Proof. solve_decision. Defined.
Global Instance passwords_row_eq_dec : EqDecision passwords.row.
Proof. solve_decision. Defined.
Global Instance sessions_row_eq_dec : EqDecision sessions.row.
Proof. solve_decision. Defined.
Global Instance verification_row_eq_dec : EqDecision verification.row.
Proof. solve_decision. Defined.

Record Db := mkDb {
  db_users : list users.row;
  db_passwords : list passwords.row;
  db_sessions : list sessions.row;
  db_verification : list verification.row
}.

(** ** The store: constraints of the schema and its statements *)

(** The store's input function for a [uuid()] column: the stored spelling
    of a text that has uuid syntax, [None] for any other text.  The store
    accepts several spellings of one uuid (upper-case digits, braces,
    hyphens left out) and stores and returns one of them. *)
Class UuidInput := uuid_in : string → option string.

Section store.
Context `{UuidInput}.

(** A [uuid()] column holds no empty text, and holds each uuid in the
    spelling the store returns. *)
Definition uuid_typed (s : string) : Prop :=
  s ≠ ""%string ∧ uuid_in s = Some s.

(** A value sent as the parameter that a query compares with a [uuid()]
    column: the store reads it as a uuid or fails the query with "invalid
    input syntax for type uuid".  Only a string can have uuid syntax: a
    number, a boolean or a date reaches the store as its text. *)
Definition uuid_param (value : JsValue) : Outcome string :=
  match value with
  | JsString text =>
    match uuid_in text with
    | Some id => Returned id
    | None => Thrown (StoreError "invalid input syntax for type uuid")
    end
  | _ => Thrown (StoreError "invalid input syntax for type uuid")
  end.

Global Instance uuid_typed_dec s : Decision (uuid_typed s).
Proof. unfold uuid_typed. apply _. Defined.

(** [uuid().primaryKey()] on [users.id] and [unique()] on [users.email]. *)
Definition users_ok (rows : list users.row) : Prop :=
  NoDup (users.id <$> rows) ∧
  Forall uuid_typed (users.id <$> rows) ∧
  NoDup (users.email <$> rows).

(** [unique()] on [passwords.userId] and its reference to [users.id]. *)
Definition passwords_ok (us : list users.row) (rows : list passwords.row)
  : Prop :=
  NoDup (passwords.userId <$> rows) ∧
  Forall (λ p, passwords.userId p ∈ users.id <$> us) rows.

(** [uuid().primaryKey()] on [sessions.id] and the reference of
    [sessions.userId] to [users.id]. *)
Definition sessions_ok (us : list users.row) (rows : list sessions.row)
  : Prop :=
  NoDup (sessions.id <$> rows) ∧
  Forall uuid_typed (sessions.id <$> rows) ∧
  Forall (λ s, sessions.userId s ∈ users.id <$> us) rows.

(** [uuid().primaryKey()] on [verification.id] and
    [unique().on(table.target, table.type)], which the unique index
    [verification_target_type_key] states a second time. *)
Definition verification_key (v : verification.row) : string * string :=
  (verification.target v, verification.type v).

Definition verification_ok (rows : list verification.row) : Prop :=
  NoDup (verification.id <$> rows) ∧
  Forall uuid_typed (verification.id <$> rows) ∧
  NoDup (verification_key <$> rows).

Definition Db_ok (db : Db) : Prop :=
  users_ok (db_users db) ∧
  passwords_ok (db_users db) (db_passwords db) ∧
  sessions_ok (db_users db) (db_sessions db) ∧
  verification_ok (db_verification db).

Global Instance users_ok_dec rows : Decision (users_ok rows).
Proof. unfold users_ok. apply _. Defined.
Global Instance passwords_ok_dec us rows : Decision (passwords_ok us rows).
Proof. unfold passwords_ok. apply _. Defined.
Global Instance sessions_ok_dec us rows : Decision (sessions_ok us rows).
Proof. unfold sessions_ok. apply _. Defined.
Global Instance verification_ok_dec rows : Decision (verification_ok rows).
Proof. unfold verification_ok. apply _. Defined.
Global Instance Db_ok_dec db : Decision (Db_ok db).
Proof. unfold Db_ok. apply _. Defined.

(** [db.insert(sessions).values(row).returning(...)]: the row is added
    when the constraints still hold, and the statement fails otherwise. *)
Definition insert_session (row : sessions.row) (db : Db)
  : Outcome (list sessions.row * Db) :=
  let rows := db_sessions db ++ [row] in
  if decide (sessions_ok (db_users db) rows)
  then Returned ([row], mkDb (db_users db) (db_passwords db) rows
                              (db_verification db))
  else Thrown (StoreError "sessions").

Definition insert_user (row : users.row) (db : Db)
  : Outcome (list users.row * Db) :=
  let rows := db_users db ++ [row] in
  if decide (users_ok rows)
  then Returned ([row], mkDb rows (db_passwords db) (db_sessions db)
                              (db_verification db))
  else Thrown (StoreError "users").

Definition insert_password (row : passwords.row) (db : Db) : Outcome Db :=
  let rows := db_passwords db ++ [row] in
  if decide (passwords_ok (db_users db) rows)
  then Returned (mkDb (db_users db) rows (db_sessions db)
                      (db_verification db))
  else Thrown (StoreError "passwords").

(** [db.delete(sessions).where(cond)]; no table refers to [sessions], so
    the statement has nothing to violate. *)
Definition delete_sessions (cond : sessions.row → bool) (db : Db) : Db :=
  mkDb (db_users db) (db_passwords db)
       (filter (λ s, cond s = false) (db_sessions db))
       (db_verification db).

(** [result[0]] *)
Definition first_row {A} (rows : list A) : Outcome A :=
  match rows with
  | r :: _ => Returned r
  | [] => Thrown (StoreError "no row returned")
  end.

(** *** Statements on the [verification] table

    Every statement is atomic and is checked against the table's
    constraints; a statement that would violate one fails and changes
    nothing.  [VInsertOnConflictUpdate] is
    [insert(...).onConflictDoUpdate({ target: [target, type], set })]. *)
Inductive VerificationStmt :=
| VInsert (row : verification.row)
| VInsertOnConflictUpdate (row : verification.row)
    (set : verification.row → verification.row)
| VUpdate (cond : verification.row → bool)
    (set : verification.row → verification.row)
| VDelete (cond : verification.row → bool).

Definition checked_verification (rows : list verification.row)
  : Outcome (list verification.row) :=
  if decide (verification_ok rows) then Returned rows
  else Thrown (StoreError "verification").

Definition same_key (a b : verification.row) : bool :=
  bool_decide (verification_key a = verification_key b).

Definition update_where {A} (cond : A → bool) (set : A → A) (rows : list A)
  : list A := (λ r, if cond r then set r else r) <$> rows.

Definition exec_verification (st : VerificationStmt)
  (rows : list verification.row) : Outcome (list verification.row) :=
  match st with
  | VInsert row => checked_verification (rows ++ [row])
  | VInsertOnConflictUpdate row set =>
    if existsb (same_key row) rows
    then checked_verification (update_where (same_key row) set rows)
    else checked_verification (rows ++ [row])
  | VUpdate cond set => checked_verification (update_where cond set rows)
  | VDelete cond => Returned (filter (λ r, cond r = false) rows)
  end.

Definition step_verification (rows : list verification.row)
  (st : VerificationStmt) : list verification.row :=
  match exec_verification st rows with
  | Returned rows' => rows'
  | Thrown _ => rows
  end.

(** The statements of any number of requests, in the order in which the
    store executes them, starting from the empty table. *)
Definition run_verification (stmts : list VerificationStmt)
  : list verification.row := foldl step_verification [] stmts.

(** The rows of the table for one [(target, type)] pair. *)
Definition rows_for (target type : string) (rows : list verification.row)
  : list verification.row :=
  filter (λ v, verification_key v = (target, type)) rows.

(** ** app/utils/auth.server.ts *)

Definition SESSION_EXPIRATION_TIME : Z := 1000 * 60 * 60 * 24 * 30.

(** [now] is the reading of [Date.now()]. *)
Definition getSessionExpirationDate (now : Z) : Z :=
  now + SESSION_EXPIRATION_TIME.

Definition sessionKey : string := "sessionId".

(** The [user] relation of a session row ([with: { user: ... }]). *)
Definition session_user (db : Db) (s : sessions.row) : option users.row :=
  List.find (λ u, String.eqb (users.id u) (sessions.userId s)) (db_users db).

(** The [password] relation of a user row ([with: { password: ... }]). *)
Definition user_password (db : Db) (u : users.row) : option passwords.row :=
  List.find (λ p, String.eqb (passwords.userId p) (users.id u))
            (db_passwords db).

(** [now] is the reading of [new Date()] in the query's condition.  The
    result is [null] ([None]), the user id, or the thrown redirect that
    revokes the cookie. *)
Definition getUserId (now : Z) (db : Db) (request : Request)
  : Outcome (option string) :=
  let authSession := getSession AuthCookie request in
  match session_get authSession sessionKey with
  | None => Returned None
  | Some sessionId =>
    if negb (truthy sessionId) then Returned None
    else
      id ← uuid_param sessionId;
      let existingSession :=
        List.find (λ s, String.eqb (sessions.id s) id
                        && (now <? sessions.expirationDate s))
                  (db_sessions db) in
      match existingSession ≫= session_user db with
      | None =>
        Thrown (ThrowRedirect (redirect "/" [destroySession AuthCookie]))
      | Some user => Returned (Some (users.id user))
      end
  end.

(** [if (userId)] on the result of [getUserId]. *)
Definition truthy_id (userId : option string) : bool :=
  truthy_opt (JsString <$> userId).

Definition requireAnonymous (now : Z) (db : Db) (request : Request)
  : Outcome unit :=
  userId ← getUserId now db request;
  if truthy_id userId then Thrown (ThrowRedirect (redirect "/" []))
  else Returned tt.

Record UserInfo := mkUserInfo {
  info_email : option string;
  info_userId : option string
}.

(** The condition built by [verifyUserPassword].  [WhereId] takes the id
    in the stored spelling, as [requireUserId] hands it over. *)
Inductive UserWhere :=
| WhereEmail (email : string)
| WhereId (id : string).

Definition user_matches (w : UserWhere) (u : users.row) : bool :=
  match w with
  | WhereEmail e => String.eqb (users.email u) e
  | WhereId i => String.eqb (users.id u) i
  end.

Definition nonempty (s : option string) : bool := truthy_opt (JsString <$> s).

Section auth_server.

(** The capabilities of [bcryptjs] and of [remix-utils]; [salt] is the
    randomness [bcrypt.hash] draws. *)
Variable bcrypt_compare : string → string → bool.
Variable bcrypt_hash : string → Z → string → string.
Variable safeRedirect : option string → string.
Variable toLowerCase : string → string.

Definition getPasswordHash (salt : string) (password : string) : string :=
  bcrypt_hash password 10 salt.

(** The result is [null] or the object [{ id }], given by its id. *)
Definition verifyUserPassword (db : Db) (userInfo : UserInfo)
  (password : string) : option string :=
  let where0 : option UserWhere := None in
  let where1 :=
    if nonempty (info_email userInfo)
    then WhereEmail <$> info_email userInfo else where0 in
  let where2 :=
    if nonempty (info_userId userInfo)
    then WhereId <$> info_userId userInfo else where1 in
  match where2 with
  | None => None
  | Some w =>
    match List.find (user_matches w) (db_users db) with
    | None => None
    | Some userWithPassword =>
      match user_password db userWithPassword with
      | None => None
      | Some pw =>
        if bcrypt_compare password (passwords.hash pw)
        then Some (users.id userWithPassword)
        else None
      end
    end
  end.

(** The three ways a credential check on an email can fail: no user has
    the email, the user has no [passwords] row, or the stored hash does
    not match. *)
Inductive CredentialFailure (db : Db) (email password : string) : Prop :=
| NoSuchUser :
    (∀ u, u ∈ db_users db → users.email u ≠ email) →
    CredentialFailure db email password
| NoStoredHash (u : users.row) :
    u ∈ db_users db → users.email u = email →
    (∀ p, p ∈ db_passwords db → passwords.userId p ≠ users.id u) →
    CredentialFailure db email password
| WrongPassword (u : users.row) (p : passwords.row) :
    u ∈ db_users db → users.email u = email →
    p ∈ db_passwords db → passwords.userId p = users.id u →
    bcrypt_compare password (passwords.hash p) = false →
    CredentialFailure db email password.

(** [now] is [Date.now()], [uuid] the result of [uuidv7()] and
    [current_timestamp] the store's clock for the [createdAt] default.
    The result is [null] or the new session row, with the store. *)
Definition login (now : Z) (uuid : string) (current_timestamp : Z)
  (db : Db) (email password : string)
  : Outcome (option sessions.row * Db) :=
  match verifyUserPassword db (mkUserInfo (Some email) None) password with
  | None => Returned (None, db)
  | Some userId =>
    '(newSession, db') ←
      insert_session
        (sessions.mk uuid (getSessionExpirationDate now)
                     current_timestamp userId) db;
    s ← first_row newSession;
    Returned (Some s, db')
  end.

(** The three inserts run in one transaction: a failure leaves the store
    as it was, which the [Thrown] outcome (carrying no store) models. *)
Definition signup (now : Z) (userUuid sessionUuid salt : string)
  (current_timestamp : Z) (db : Db) (email name sentPassword : string)
  : Outcome (sessions.row * Db) :=
  let hashedPassword := getPasswordHash salt sentPassword in
  '(result, db1) ←
    insert_user (users.mk userUuid (toLowerCase email) (Some name)
                          current_timestamp true) db;
  u ← first_row result;
  db2 ← insert_password (passwords.mk hashedPassword (users.id u)) db1;
  '(newSession, db3) ←
    insert_session
      (sessions.mk sessionUuid (getSessionExpirationDate now)
                   current_timestamp (users.id u)) db2;
  s ← first_row newSession;
  Returned (s, db3).

(** [redirectTo] defaults to ["/"]. *)
Definition logout (db : Db) (request : Request)
  (redirectTo : option string) (responseInit : option ResponseInit)
  : Outcome (Response * Db) :=
  let authSession := getSession AuthCookie request in
  let sessionId := session_get authSession sessionKey in
  db' ←
    match sessionId with
    | Some v =>
      if truthy v
      then
        id ← uuid_param v;
        Returned (delete_sessions (λ s, String.eqb (sessions.id s) id) db)
      else Returned db
    | None => Returned db
    end;
  Returned
    (redirect (safeRedirect (Some (default "/"%string redirectTo)))
              (combineHeaders [destroySession AuthCookie] responseInit),
     db').

End auth_server.

(** ** app/utils/login.server.ts *)

Definition verifiedTimeKey : string := "verified-time".
Definition unverifiedSessionIdKey : string := "unverified-session-id".
Definition rememberKey : string := "remember".

Record Url := mkUrl {
  pathname : string;
  searchParams : string
}.

(** The parsed form of the verify route: [status === "success"] with its
    [value.redirectTo], or anything else. *)
Inductive Submission :=
| SubmissionSuccess (redirectTo : option string)
| SubmissionFailure.

Definition submission_success (submission : Submission) : bool :=
  match submission with
  | SubmissionSuccess _ => true
  | SubmissionFailure => false
  end.

Definition submission_redirectTo (submission : Submission) : option string :=
  match submission with
  | SubmissionSuccess redirectTo => redirectTo
  | SubmissionFailure => None
  end.

Section login_server.

(** [twoFAVerificationType] comes from the two-factor settings route and
    [getRedirectToUrl] from [~/utils/verify.server]; [StringToNumber] is
    the conversion JavaScript applies to a string operand of [-]
    ([None] for NaN). *)
Variable twoFAVerificationType : string.
Variable getRedirectToUrl : Request → string → string → option string → Url.
Variable safeRedirect : option string → string.
Variable StringToNumber : string → option Z.

(** [db.query.verification.findFirst] on the target and the 2FA type. *)
Definition find_twoFA (db : Db) (target : string)
  : option verification.row :=
  List.find (λ v, String.eqb (verification.target v) target
                  && String.eqb (verification.type v) twoFAVerificationType)
            (db_verification db).

Definition handleNewSession (db : Db) (request : Request)
  (session : sessions.row) (redirectTo : option string) (remember : bool)
  (responseInit : option ResponseInit) : Outcome Response :=
  let existingVerification := find_twoFA db (sessions.userId session) in
  let userHasTwoFactor := bool_decide (is_Some existingVerification) in
  if userHasTwoFactor then
    let verifySession := getSession_fresh in
    let verifySession :=
      session_set verifySession unverifiedSessionIdKey
                  (JsString (sessions.id session)) in
    let verifySession :=
      session_set verifySession rememberKey (JsBool remember) in
    let redirectUrl :=
      getRedirectToUrl request twoFAVerificationType
                       (sessions.userId session) redirectTo in
    Returned
      (redirect
         (pathname redirectUrl +:+ "?" +:+ searchParams redirectUrl)
         (combineResponseInits
            [commitSession VerifyCookie verifySession None]
            responseInit))
  else
    let authSession := getSession AuthCookie request in
    let authSession :=
      session_set authSession sessionKey (JsString (sessions.id session)) in
    Returned
      (redirect
         (safeRedirect redirectTo)
         (combineResponseInits
            [commitSession AuthCookie authSession
               (if remember then Some (sessions.expirationDate session)
                else None)]
            responseInit)).

(** [now] is the reading of [Date.now()]. *)
Definition handleVerification (now : Z) (db : Db) (request : Request)
  (submission : Submission) : Outcome Response :=
  _ ← invariant (submission_success submission)
                "Submission should be successful by now";
  let authSession := getSession AuthCookie request in
  let verifySession := getSession VerifyCookie request in
  let remember := session_get verifySession rememberKey in
  let redirectTo := submission_redirectTo submission in
  let headers : list Header := [] in
  let authSession := session_set authSession verifiedTimeKey (JsNumber now) in
  let unverifiedSessionId :=
    session_get verifySession unverifiedSessionIdKey in
  let otherwise : Outcome (list Header) :=
    Returned (headers ++ [commitSession AuthCookie authSession None]) in
  headers ←
    match unverifiedSessionId with
    | Some sid =>
      if truthy sid then
        id ← uuid_param sid;
        match List.find (λ s, String.eqb (sessions.id s) id)
                        (db_sessions db) with
        | None => Thrown (ThrowRedirect (redirect "/accounts/login" []))
        | Some existingSession =>
          let authSession := session_set authSession sessionKey sid in
          Returned
            (headers ++
             [commitSession AuthCookie authSession
                (if truthy_opt remember
                 then Some (sessions.expirationDate existingSession)
                 else None)])
        end
      else otherwise
    | None => otherwise
    end;
  let headers := headers ++ [destroySession VerifyCookie] in
  Returned (redirect (safeRedirect redirectTo) headers).

(** The operand of [Date.now() - verifiedTime] as a number. *)
Definition to_number (v : JsValue) : option Z :=
  match v with
  | JsNumber n => Some n
  | JsDate t => Some t
  | JsBool b => Some (if b then 1 else 0)
  | JsString s => StringToNumber s
  end.

(** [t_query] is the reading of [new Date()] inside [getUserId], [now]
    the later reading of [Date.now()]. *)
Definition shouldRequestTwoFA (t_query now : Z) (db : Db)
  (request : Request) : Outcome bool :=
  let authSession := getSession AuthCookie request in
  let verifySession := getSession VerifyCookie request in
  if session_has verifySession unverifiedSessionIdKey then Returned true
  else
    userId ← getUserId t_query db request;
    match userId with
    | None => Returned false
    | Some uid =>
      if negb (truthy (JsString uid)) then Returned false
      else
        let userHasTwoFA := find_twoFA db uid in
        if negb (bool_decide (is_Some userHasTwoFA)) then Returned false
        else
          let verifiedTime :=
            default (JsDate 0) (session_get authSession verifiedTimeKey) in
          let twoHours := 1000 * 60 * 2 in
          Returned
            match to_number verifiedTime with
            | Some t => bool_decide (now - t > twoHours)
            | None => false
            end
    end.

End login_server.

(** ** The client holding the two cookies *)

Record Client := mkClient {
  client_auth : option SessionData;
  client_verify : option SessionData
}.

(** A [set-cookie] header replaces the named cookie; a destroyed session
    removes it. *)
Definition receive_header (c : Client) (h : Header) : Client :=
  match h with
  | SetCookie AuthCookie payload _ => mkClient payload (client_verify c)
  | SetCookie VerifyCookie payload _ => mkClient (client_auth c) payload
  | OtherHeader _ _ => c
  end.

Definition receive (c : Client) (r : Response) : Client :=
  foldl receive_header c (headers r).

Definition request_of (c : Client) (url : string) : Request :=
  mkRequest url (client_auth c) (client_verify c).

(** The session id bound into the authenticated channel. *)
Definition bound_session (c : Client) : option JsValue :=
  client_auth c ≫= λ s, session_get s sessionKey.

(** The pending session written by [handleNewSession]. *)
Definition pending_session (session : sessions.row) (remember : bool)
  : SessionData :=
  <[rememberKey := JsBool remember]>
    (<[unverifiedSessionIdKey := JsString (sessions.id session)]> ∅).

(** A header that writes the authenticated cookie. *)
Definition sets_auth_cookie (h : Header) : bool :=
  match h with
  | SetCookie AuthCookie _ _ => true
  | _ => false
  end.

End store.

(** ** A sample store and sample requests

    One user with a password and an enrolled second factor, a second user
    with a password only, and stand-ins for the external capabilities. *)

Module sample.

Definition t0 : Z := 1700000000000.

Definition ann : users.row :=
  users.mk "018bcfe5-6800-7000-8000-00000000000a" "ann@example.org"
           (Some "Ann"%string) 1690000000000 true.
Definition bob : users.row :=
  users.mk "018bcfe5-6800-7000-8000-00000000000b" "bob@example.org"
           (Some "Bob"%string) 1690000000000 true.

Definition ann_password : passwords.row :=
  passwords.mk "bcrypt:correct horse" (users.id ann).
Definition bob_password : passwords.row :=
  passwords.mk "bcrypt:battery staple" (users.id bob).

Definition ann_two_factor : verification.row :=
  verification.mk "018bcfe5-6800-7000-8000-0000000000f0" 1695000000000
                  "2fa" (users.id ann) "JBSWY3DPEHPK3PXP" "SHA1" 6 30
                  "0123456789" None.

Definition db0 : Db :=
  mkDb [ann; bob] [ann_password; bob_password] [] [ann_two_factor].

(** The rows that [login] creates at [t0] for the two users. *)
Definition ann_session : sessions.row :=
  sessions.mk "018bcfe5-6800-7000-8000-0000000000a1" (t0 + 2592000000)
              t0 (users.id ann).
Definition bob_session : sessions.row :=
  sessions.mk "018bcfe5-6800-7000-8000-0000000000b1" (t0 + 2592000000)
              t0 (users.id bob).

Definition db_ann : Db :=
  mkDb [ann; bob] [ann_password; bob_password] [ann_session]
       [ann_two_factor].
Definition db_bob : Db :=
  mkDb [ann; bob] [ann_password; bob_password] [bob_session]
       [ann_two_factor].

Definition bcrypt_compare (password hash : string) : bool :=
  String.eqb ("bcrypt:" +:+ password) hash.
Definition safeRedirect (to : option string) : string := default "/"%string to.
Definition getRedirectToUrl (request : Request) (type target : string)
  (redirectTo : option string) : Url :=
  mkUrl "/accounts/verify" ("type=" +:+ type +:+ "&target=" +:+ target).
Definition StringToNumber (s : string) : option Z := None.

Definition anonymous : Request := mkRequest "/accounts/login" None None.

(** Ann's committed session, stamped with a step-up at [t0]. *)
Definition ann_stamped : Request :=
  mkRequest "/settings"
    (Some (<[verifiedTimeKey := JsNumber t0]>
             (<[sessionKey := JsString (sessions.id ann_session)]> ∅)))
    None.


(** A stand-in for the store's reading of uuid text: sixteen bytes of
    two hexadecimal digits each, a hyphen allowed after every second
    byte (character 45), braces (characters 123 and 125) allowed around
    the whole; the stored spelling has lower-case digits in groups of 8,
    4, 4, 4 and 12. *)
Definition is_hex (c : Ascii.ascii) : bool :=
  let n := Ascii.nat_of_ascii c in
  ((48 <=? n) && (n <=? 57) || (97 <=? n) && (n <=? 102)
   || (65 <=? n) && (n <=? 70))%nat.

Definition lower_hex (c : Ascii.ascii) : Ascii.ascii :=
  let n := Ascii.nat_of_ascii c in
  if ((65 <=? n) && (n <=? 70))%nat then Ascii.ascii_of_nat (n + 32) else c.

Fixpoint uuid_bytes (n i : nat) (src : string) : option (string * string) :=
  match n with
  | O => Some (EmptyString, src)
  | S n' =>
    match src with
    | String a (String b rest) =>
      if is_hex a && is_hex b then
        let rest' :=
          match rest with
          | String c rest'' =>
            if (Ascii.nat_of_ascii c =? 45)%nat && Nat.odd i && (i <? 15)%nat
            then rest'' else rest
          | EmptyString => rest
          end in
        match uuid_bytes n' (S i) rest' with
        | Some (digits, tail) =>
          Some (String (lower_hex a) (String (lower_hex b) digits), tail)
        | None => None
        end
      else None
    | _ => None
    end
  end.

Definition uuid_out (digits : string) : string :=
  String.substring 0 8 digits +:+ "-" +:+ String.substring 8 4 digits +:+ "-" +:+
  String.substring 12 4 digits +:+ "-" +:+ String.substring 16 4 digits +:+ "-" +:+
  String.substring 20 12 digits.

Definition uuid_text : UuidInput := λ source,
  let '(braces, src) :=
    match source with
    | String c rest => if (Ascii.nat_of_ascii c =? 123)%nat then (true, rest) else (false, source)
    | EmptyString => (false, source)
    end in
  match uuid_bytes 16 0 src with
  | Some (digits, tail) =>
    if String.eqb tail (if braces then "}" else "")
    then Some (uuid_out digits) else None
  | None => None
  end.

(** A cookie whose session id is no uuid. *)
Definition malformed_session : Request :=
  mkRequest "/accounts/logout"
            (Some (<[sessionKey := JsString "not-a-uuid"]> ∅)) None.

End sample.

(** ** The rest of app/utils/auth.server.ts *)

(** [parts.filter(Boolean).join(sep)], a part being a string or
    [undefined]. *)
Definition join_truthy (sep : string) (parts : list (option string))
  : string :=
  String.concat sep
    (omap (λ part, if nonempty part then part else None) parts).

(** The response of [logout] when it returns. *)
Definition logout_response (safeRedirect : option string → string)
  (redirectTo : option string) (responseInit : option ResponseInit)
  : Response :=
  redirect (safeRedirect (Some (default "/"%string redirectTo)))
           (combineHeaders [destroySession AuthCookie] responseInit).

(** [db.update(passwords).set(...).where(cond)] *)
Definition update_passwords (cond : passwords.row → bool)
  (set : passwords.row → passwords.row) (db : Db) : Outcome Db :=
  let rows := update_where cond set (db_passwords db) in
  if decide (passwords_ok (db_users db) rows)
  then Returned (mkDb (db_users db) rows (db_sessions db)
                      (db_verification db))
  else Thrown (StoreError "passwords").

Section auth_server_rest.
Context `{UuidInput}.

(** [path_and_search url] is [`${requestUrl.pathname}${requestUrl.search}`]
    for [new URL(url)], and [login_params redirectTo] is
    [new URLSearchParams({ redirectTo }).toString()]. *)
Variable path_and_search : string → string.
Variable login_params : string → string.
Variable bcrypt_hash : string → Z → string → string.

(** The option [redirectTo] is [undefined] ([None]), [null] ([Some None])
    or a string. *)
Definition requireUserId (now : Z) (db : Db) (request : Request)
  (redirectTo : option (option string)) : Outcome string :=
  userId ← getUserId now db request;
  let to_login : Outcome string :=
    let redirectTo : option string :=
      match redirectTo with
      | Some None => None
      | Some (Some r) => Some r
      | None => Some (path_and_search (url request))
      end in
    let loginParams :=
      if nonempty redirectTo then login_params <$> redirectTo else None in
    let loginRedirect :=
      join_truthy "?" [Some "/accounts/login"%string; loginParams] in
    Thrown (ThrowRedirect (redirect loginRedirect [])) in
  match userId with
  | Some uid => if truthy (JsString uid) then Returned uid else to_login
  | None => to_login
  end.

Definition resetUserPassword (salt : string) (db : Db)
  (userId newPassword : string) : Outcome Db :=
  let hashedPassword := getPasswordHash bcrypt_hash salt newPassword in
  id ← uuid_param (JsString userId);
  update_passwords (λ p, String.eqb (passwords.userId p) id)
                   (λ p, passwords.mk hashedPassword (passwords.userId p))
                   db.

End auth_server_rest.

(** The password rows after [resetUserPassword] for [userId] has stored
    [hash]. *)
Definition reset_rows (hash userId : string) (rows : list passwords.row)
  : list passwords.row :=
  update_where (λ p, String.eqb (passwords.userId p) userId)
               (λ p, passwords.mk hash (passwords.userId p)) rows.

(** ** The [email_tokens] table and the cascade of a user's deletion *)

Module emailTokens.
Record row := mk {
  token : string;
  createdAt : Z;
  userId : string
}.
End emailTokens.

Global Instance emailTokens_row_eq_dec : EqDecision emailTokens.row.
Proof. solve_decision. Defined.

(** The store with all five tables. *)
Record Store := mkStore {
  store_db : Db;
  store_emailTokens : list emailTokens.row
}.

(** [unique()] on [emailTokens.userId] and its reference to [users.id]. *)
Definition emailTokens_ok (us : list users.row)
  (rows : list emailTokens.row) : Prop :=
  NoDup (emailTokens.userId <$> rows) ∧
  Forall (λ t, emailTokens.userId t ∈ users.id <$> us) rows.

Definition Store_ok `{UuidInput} (st : Store) : Prop :=
  Db_ok (store_db st) ∧
  emailTokens_ok (db_users (store_db st)) (store_emailTokens st).

Global Instance emailTokens_ok_dec us rows : Decision (emailTokens_ok us rows).
Proof. unfold emailTokens_ok. apply _. Defined.
Global Instance Store_ok_dec `{UuidInput} st : Decision (Store_ok st).
Proof. unfold Store_ok. apply _. Defined.

(** The rows of a table that refers to [users.id] with
    [onDelete: "cascade"] and whose user is not among the deleted ids. *)
Definition surviving {A} (owner : A → string) (gone : list string)
  (rows : list A) : list A := filter (λ r, owner r ∉ gone) rows.

(** [db.delete(users).where(cond)]: the rows of [passwords], [sessions]
    and [email_tokens] that refer to a deleted user go with it; the
    [verification] table has no reference to [users]. *)
Definition delete_users (cond : users.row → bool) (st : Store) : Store :=
  let db := store_db st in
  let gone := users.id <$> filter (λ u, cond u = true) (db_users db) in
  mkStore
    (mkDb (filter (λ u, cond u = false) (db_users db))
          (surviving passwords.userId gone (db_passwords db))
          (surviving sessions.userId gone (db_sessions db))
          (db_verification db))
    (surviving emailTokens.userId gone (store_emailTokens st)).

(** ** app/routes/accounts/user.delete.ts *)

Module user_delete.

Definition action `{UuidInput}
  (path_and_search login_params : string → string)
  (now : Z) (st : Store) (request : Request) : Outcome (Response * Store) :=
  userId ← requireUserId path_and_search login_params now (store_db st)
                         request None;
  let st' := delete_users (λ u, String.eqb (users.id u) userId) st in
  Returned (redirect "/" [], st').

End user_delete.

(** ** Route results *)

(** What a loader or action returns: a redirect, or [data(...)] with its
    status. *)
Inductive RouteResult :=
| RouteRedirect (r : Response)
| RouteData (status : Z).

(** A route can also fail with [throw new Error(msg)]. *)
Inductive RouteOutcome (A : Type) :=
| RouteReturned (a : A)
| RouteThrown (e : Exception)
| RouteJsError (msg : string).
Arguments RouteReturned {A} a.
Arguments RouteThrown {A} e.
Arguments RouteJsError {A} msg.

Definition lift_outcome {A} (o : Outcome A) : RouteOutcome A :=
  match o with
  | Returned a => RouteReturned a
  | Thrown e => RouteThrown e
  end.

Global Instance RouteOutcome_bind : MBind RouteOutcome := fun A B k m =>
  match m with
  | RouteReturned a => k a
  | RouteThrown e => RouteThrown e
  | RouteJsError msg => RouteJsError msg
  end.

(** The [status] of a parsed form: ["success"] with the password fields'
    value, ["error"], or neither. *)
Inductive PasswordSubmission :=
| PasswordSuccess (password : string)
| PasswordError
| PasswordUnsubmitted.

(** ** app/routes/accounts/reset-password.tsx *)

Module reset_password.

Definition resetPasswordEmailSessionKey : string := "resetPasswordEmail".

Definition requireResetPasswordEmail `{UuidInput} (now : Z) (db : Db)
  (request : Request) : Outcome string :=
  _ ← requireAnonymous now db request;
  let verifySession := getSession VerifyCookie request in
  let to_login : Outcome string :=
    Thrown (ThrowRedirect (redirect "/accounts/login" [])) in
  match session_get verifySession resetPasswordEmailSessionKey with
  | Some (JsString resetPasswordEmail) =>
    if truthy (JsString resetPasswordEmail) then Returned resetPasswordEmail
    else to_login
  | _ => to_login
  end.

Definition loader `{UuidInput} (now : Z) (db : Db) (request : Request)
  : Outcome string := requireResetPasswordEmail now db request.

(** [submission] is the form of the request as [parseWithZod] reads it. *)
Definition action `{UuidInput} (bcrypt_hash : string → Z → string → string)
  (salt : string) (now : Z) (db : Db) (request : Request)
  (submission : PasswordSubmission) : RouteOutcome (RouteResult * Db) :=
  resetPasswordEmail ← lift_outcome (requireResetPasswordEmail now db request);
  match submission with
  | PasswordError => RouteReturned (RouteData 400, db)
  | PasswordUnsubmitted => RouteReturned (RouteData 200, db)
  | PasswordSuccess password =>
    let existingUser :=
      List.find (λ u, String.eqb (users.email u) resetPasswordEmail)
                (db_users db) in
    match existingUser with
    | None => RouteJsError "Something went wrong"
    | Some user =>
      db' ← lift_outcome
              (resetUserPassword bcrypt_hash salt db (users.id user) password);
      let verifySession := getSession_fresh in
      RouteReturned
        (RouteRedirect
           (redirect "/accounts/login" [destroySession VerifyCookie]),
         db')
    end
  end.

End reset_password.

(** ** app/routes/accounts/onboarding.tsx *)

Module onboarding.

Definition onboardingEmailSessionKey : string := "onboardingEmail".

Definition requireOnboardingEmail `{UuidInput} (now : Z) (db : Db)
  (request : Request) : Outcome string :=
  _ ← requireAnonymous now db request;
  let verifySession := getSession VerifyCookie request in
  let to_signup : Outcome string :=
    Thrown (ThrowRedirect (redirect "/accounts/signup" [])) in
  match session_get verifySession onboardingEmailSessionKey with
  | Some (JsString email) =>
    if truthy (JsString email) then Returned email else to_signup
  | _ => to_signup
  end.

Definition loader `{UuidInput} (now : Z) (db : Db) (request : Request)
  : Outcome string := requireOnboardingEmail now db request.

End onboarding.

(** ** Sample requests and stand-ins for the routes *)

Module sample_routes.

Definition lower_ascii (c : Ascii.ascii) : Ascii.ascii :=
  let n := Ascii.nat_of_ascii c in
  if ((65 <=? n) && (n <=? 90))%nat then Ascii.ascii_of_nat (n + 32) else c.

Fixpoint toLowerCase (s : string) : string :=
  match s with
  | EmptyString => EmptyString
  | String c rest => String (lower_ascii c) (toLowerCase rest)
  end.

Definition bcrypt_hash (password : string) (cost : Z) (salt : string)
  : string := "bcrypt:" +:+ password.
Definition path_and_search (url : string) : string := url.
Definition login_params (redirectTo : string) : string :=
  "redirectTo=" +:+ redirectTo.

(** Both users logged in at [sample.t0]. *)
Definition db_both : Db :=
  mkDb [sample.ann; sample.bob] [sample.ann_password; sample.bob_password]
       [sample.ann_session; sample.bob_session] [sample.ann_two_factor].

Definition ann_token : emailTokens.row :=
  emailTokens.mk "4f9a2c" 1690000000000 (users.id sample.ann).

Definition store_both : Store := mkStore db_both [ann_token].

(** A user with an account but no password row. *)
Definition carol : users.row :=
  users.mk "018bcfe5-6800-7000-8000-00000000000c" "carol@example.org"
           (Some "Carol"%string) 1690000000000 true.
Definition db_carol : Db :=
  mkDb [sample.ann; carol] [sample.ann_password] [] [].

Definition with_session (url : string) (s : sessions.row) : Request :=
  mkRequest url (Some (<[sessionKey := JsString (sessions.id s)]> ∅)) None.

Definition ann_request : Request := with_session "/settings" sample.ann_session.
Definition bob_request : Request := with_session "/settings" sample.bob_session.

(** A cookie whose session id no row has. *)
Definition stale_request : Request :=
  mkRequest "/settings?tab=email"
    (Some (<[sessionKey := JsString "018bcfe5-6800-7000-8000-0000000000c1"]>
             ∅)) None.

(** Ann's browser on the verify form after [handleNewSession]. *)
Definition ann_pending : Request :=
  mkRequest "/accounts/verify" None
            (Some (pending_session sample.ann_session true)).

Definition with_pending (url key email : string) : Request :=
  mkRequest url None (Some (<[key := JsString email]> ∅)).

Definition reset_request : Request :=
  with_pending "/accounts/reset-password"
               reset_password.resetPasswordEmailSessionKey "ann@example.org".
Definition reset_unknown_request : Request :=
  with_pending "/accounts/reset-password"
               reset_password.resetPasswordEmailSessionKey
               "nobody@example.org".
Definition onboarding_request : Request :=
  with_pending "/accounts/onboarding"
               onboarding.onboardingEmailSessionKey "dave@example.org".

(** What [signup] at [sample.t0] stores for a new user. *)
Definition dave : users.row :=
  users.mk "018bcfe5-6800-7000-8000-00000000000d" "dave@example.org"
           (Some "Dave"%string) sample.t0 true.
Definition dave_password : passwords.row :=
  passwords.mk "bcrypt:tr0ub4dor" (users.id dave).
Definition dave_session : sessions.row :=
  sessions.mk "018bcfe5-6800-7000-8000-0000000000d1"
              (sample.t0 + 2592000000) sample.t0 (users.id dave).
Definition db_dave : Db :=
  mkDb [sample.ann; sample.bob; dave]
       [sample.ann_password; sample.bob_password; dave_password]
       [dave_session] [sample.ann_two_factor].

(** [store_both] after Ann's account is deleted. *)
Definition store_without_ann : Store :=
  mkStore (mkDb [sample.bob] [sample.bob_password] [sample.bob_session]
                [sample.ann_two_factor]) [].

(** [sample.db0] after Ann's password is reset. *)
Definition db_reset : Db :=
  mkDb [sample.ann; sample.bob]
       [passwords.mk "bcrypt:new secret" (users.id sample.ann);
        sample.bob_password]
       [] [sample.ann_two_factor].

End sample_routes.

(** A statement about every row of a concrete table, by evaluation. *)
Ltac every_row :=
  refine (proj1 (Forall_forall _ _) _); compute_done.

(** * Properties *)

Section properties.
Context {store_uuid : UuidInput}.


(** ** Queries on a table with a unique column *)

Section find_facts.
Context {A : Type}.
Implicit Types (l : list A) (p : A → bool).

Lemma find_none_iff p l :
  List.find p l = None ↔ ∀ x, x ∈ l → p x = false.
Proof.
  induction l as [|y l IH]; simpl.
  - split; [intros _ x Hx; inversion Hx | done].
  - destruct (p y) eqn:Hy.
    + split; [done | intros H; specialize (H y (list_elem_of_here _ _))].
      congruence.
    + rewrite IH. split.
      * intros H x [->|Hx]%elem_of_cons; auto.
      * intros H x Hx. apply H. by right.
Qed.

Lemma find_some_spec p l x :
  List.find p l = Some x → x ∈ l ∧ p x = true.
Proof.
  induction l as [|y l IH]; simpl; [done|].
  destruct (p y) eqn:Hy.
  - intros [= ->]. split; [left | done].
  - intros [Hx Hp]%IH. split; [by right | done].
Qed.

Lemma find_is_some p l x :
  x ∈ l → p x = true → is_Some (List.find p l).
Proof.
  intros Hx Hp. destruct (List.find p l) eqn:Hf; [eauto|].
  rewrite find_none_iff in Hf. rewrite (Hf x Hx) in Hp. done.
Qed.

(** A query on a unique column, with a further condition [q], finds
    the one row holding the value or nothing. *)
Lemma find_unique (key : A → string) p q l x :
  NoDup (key <$> l) → x ∈ l →
  (∀ y, p y = true ↔ key y = key x) →
  List.find (λ y, p y && q y) l = if q x then Some x else None.
Proof.
  intros Hnd Hx Hp. induction l as [|y l IH]; [inversion Hx|].
  rewrite fmap_cons, NoDup_cons in Hnd. destruct Hnd as [Hy Hnd].
  simpl. apply elem_of_cons in Hx as [->|Hx].
  - rewrite (proj2 (Hp y) eq_refl). simpl. destruct (q y); [done|].
    apply find_none_iff. intros z Hz.
    destruct (p z) eqn:Hpz; [|done]. apply Hp in Hpz.
    exfalso. apply Hy. rewrite <- Hpz. by apply list_elem_of_fmap_2.
  - destruct (p y) eqn:Hpy.
    + apply Hp in Hpy. exfalso. apply Hy. rewrite Hpy.
      by apply list_elem_of_fmap_2.
    + simpl. by apply IH.
Qed.
Lemma find_ext p p' l :
  (∀ y, p y = p' y) → List.find p l = List.find p' l.
Proof.
  intros Hext. induction l as [|y l IH]; simpl; [done|].
  by rewrite Hext, IH.
Qed.

Lemma find_unique_key (key : A → string) p l x :
  NoDup (key <$> l) → x ∈ l →
  (∀ y, p y = true ↔ key y = key x) →
  List.find p l = Some x.
Proof.
  intros Hnd Hx Hp.
  rewrite (find_ext p (λ y, p y && true)).
  - by rewrite (find_unique key p (λ _, true) l x).
  - intros y. by rewrite andb_true_r.
Qed.
End find_facts.

Lemma eqb_string_true (a b : string) : String.eqb a b = true ↔ a = b.
Proof. apply String.eqb_eq. Qed.

Lemma truthy_string (s : string) :
  truthy (JsString s) = true ↔ s ≠ ""%string.
Proof.
  simpl. rewrite negb_true_iff. split.
  - intros H ->. by rewrite String.eqb_refl in H.
  - intros H. by apply String.eqb_neq.
Qed.

(** A stored uuid, presented again as a parameter, is read as itself. *)
Lemma uuid_typed_param (s : string) :
  uuid_typed s → uuid_param (JsString s) = Returned s.
Proof. intros [_ Hin]. unfold uuid_param. by rewrite Hin. Qed.

Lemma uuid_typed_truthy (s : string) :
  uuid_typed s → truthy (JsString s) = true.
Proof. intros [Hne _]. by apply truthy_string. Qed.

Lemma uuid_param_returned (v : JsValue) (id : string) :
  uuid_param v = Returned id ↔
  ∃ text, v = JsString text ∧ uuid_in text = Some id.
Proof.
  unfold uuid_param. split.
  - destruct v as [text| | |]; try done.
    destruct (uuid_in text) as [id'|] eqn:Hin; [|done].
    intros [= ->]. by exists text.
  - intros (text & -> & ->). done.
Qed.

Lemma sessions_ok_typed (us : list users.row) (rows : list sessions.row)
    (s : sessions.row) :
  sessions_ok us rows → s ∈ rows → uuid_typed (sessions.id s).
Proof.
  intros (_ & Huuid & _) Hs. rewrite Forall_forall in Huuid.
  apply Huuid. by apply list_elem_of_fmap_2.
Qed.

(** The owner of a session row is found through the reference to
    [users.id]. *)
Lemma session_user_owner db s :
  sessions.userId s ∈ users.id <$> db_users db →
  ∃ u, session_user db s = Some u ∧ users.id u = sessions.userId s.
Proof.
  intros (u & Hid & Hu)%list_elem_of_fmap. unfold session_user.
  destruct (find_is_some
    (λ u, String.eqb (users.id u) (sessions.userId s)) _ u Hu) as [u' Hf].
  { by apply eqb_string_true. }
  exists u'. split; [done|].
  apply find_some_spec in Hf as [_ Hf]. by apply eqb_string_true.
Qed.

(** ** Session resolution *)

(** What [getUserId] does once the cookie presents the id of a row. *)
Lemma getUserId_presented now db request s :
  sessions_ok (db_users db) (db_sessions db) →
  s ∈ db_sessions db →
  session_get (getSession AuthCookie request) sessionKey
    = Some (JsString (sessions.id s)) →
  getUserId now db request =
    if bool_decide (now < sessions.expirationDate s)
    then Returned (Some (sessions.userId s))
    else Thrown (ThrowRedirect (redirect "/" [destroySession AuthCookie])).
Proof.
  intros Hok Hs Hget. unfold getUserId. rewrite Hget.
  pose proof (sessions_ok_typed _ _ s Hok Hs) as Htyped.
  destruct Hok as (Hnd & _ & Hfk).
  rewrite (uuid_typed_truthy _ Htyped), (uuid_typed_param _ Htyped).
  simpl negb. cbv iota. simpl mbind.
  rewrite (find_unique sessions.id
             (λ y, String.eqb (sessions.id y) (sessions.id s))
             (λ y, now <? sessions.expirationDate y) _ s Hnd Hs).
  2:{ intros y. by rewrite eqb_string_true. }
  destruct (Z.ltb_spec now (sessions.expirationDate s)) as [Hlt|Hge].
  - rewrite bool_decide_eq_true_2 by done. simpl.
    rewrite Forall_forall in Hfk.
    destruct (session_user_owner db s (Hfk s Hs)) as (u & -> & <-). done.
  - rewrite bool_decide_eq_false_2 by lia. done.
Qed.

(** Whenever [getUserId] yields a user id, the cookie presented a text
    that the store reads as the id of an unexpired row owned by that
    user. *)
Lemma getUserId_sound now db request uid :
  getUserId now db request = Returned (Some uid) →
  ∃ s text, s ∈ db_sessions db ∧
       session_get (getSession AuthCookie request) sessionKey
         = Some (JsString text) ∧
       text ≠ ""%string ∧
       uuid_in text = Some (sessions.id s) ∧
       now < sessions.expirationDate s ∧
       (∃ u, session_user db s = Some u ∧ users.id u = uid).
Proof.
  unfold getUserId.
  destruct (session_get _ sessionKey) as [sid|]; [|done].
  destruct (truthy sid) eqn:Htruthy; [|done]. simpl negb. cbv iota.
  destruct (uuid_param sid) as [id|e] eqn:Hparam; [|done].
  apply uuid_param_returned in Hparam as (text & -> & Hin).
  simpl mbind.
  destruct (List.find _ (db_sessions db)) as [s|] eqn:Hf; [|done].
  simpl. destruct (session_user db s) as [u|] eqn:Hu; [|done].
  intros [= <-]. apply find_some_spec in Hf as [Hs Hc].
  apply andb_true_iff in Hc as [Hid Hexp].
  apply eqb_string_true in Hid. apply Z.ltb_lt in Hexp.
  apply truthy_string in Htruthy.
  exists s, text. rewrite Hid. repeat split; [done.. | eauto].
Qed.

(** C4: for a session row of a store that satisfies the schema, a request
    presenting the row's id resolves to the owning user id exactly when
    the current time is strictly before the row's [expirationDate]; from
    that instant on the request is answered by the redirect that revokes
    the cookie, whether or not the row is still stored. *)
Theorem getUserId_live_iff now db request s :
  sessions_ok (db_users db) (db_sessions db) →
  s ∈ db_sessions db →
  session_get (getSession AuthCookie request) sessionKey
    = Some (JsString (sessions.id s)) →
  (getUserId now db request = Returned (Some (sessions.userId s))
     ↔ now < sessions.expirationDate s) ∧
  (sessions.expirationDate s ≤ now →
     getUserId now db request =
       Thrown (ThrowRedirect (redirect "/" [destroySession AuthCookie]))).
Proof.
  intros Hok Hs Hget.
  rewrite (getUserId_presented now db request s Hok Hs Hget).
  case_bool_decide as Hlt; split.
  - done.
  - lia.
  - split; [done | lia].
  - done.
Qed.

(** ** Credentials, login and logout *)

Section auth_server_facts.
Variable bcrypt_compare : string → string → bool.
Variable bcrypt_hash : string → Z → string → string.
Variable safeRedirect : option string → string.
Variable toLowerCase : string → string.

Implicit Types (db : Db) (email password : string).

Lemma user_matches_email u email :
  user_matches (WhereEmail email) u = true ↔ users.email u = email.
Proof. apply eqb_string_true. Qed.

(** With an email that is not empty the check queries by email. *)
Lemma verifyUserPassword_by_email db email password :
  email ≠ ""%string →
  verifyUserPassword bcrypt_compare db (mkUserInfo (Some email) None)
                     password =
    match List.find (user_matches (WhereEmail email)) (db_users db) with
    | None => None
    | Some u =>
      match user_password db u with
      | None => None
      | Some pw =>
        if bcrypt_compare password (passwords.hash pw)
        then Some (users.id u) else None
      end
    end.
Proof.
  intros Hne. unfold verifyUserPassword, nonempty. simpl.
  apply String.eqb_neq in Hne. rewrite Hne. done.
Qed.

Lemma verifyUserPassword_empty_email db password :
  verifyUserPassword bcrypt_compare db (mkUserInfo (Some ""%string) None)
                     password = None.
Proof. done. Qed.

(** C5: in a store that satisfies the schema, for every email and
    password the check returns [null] in each of the three failure
    cases (no user with the email, a user without a stored hash, a hash
    that does not match), so its result is the same in all of them. *)
Theorem verifyUserPassword_failure_uniform db email password :
  users_ok (db_users db) →
  passwords_ok (db_users db) (db_passwords db) →
  CredentialFailure bcrypt_compare db email password →
  verifyUserPassword bcrypt_compare db (mkUserInfo (Some email) None)
                     password = None.
Proof.
  intros (_ & _ & Hemail) (Hpw & _) Hfail.
  destruct (decide (email = ""%string)) as [->|Hne];
    [apply verifyUserPassword_empty_email|].
  rewrite verifyUserPassword_by_email by done.
  assert (∀ u, u ∈ db_users db → users.email u = email →
            List.find (user_matches (WhereEmail email)) (db_users db)
              = Some u) as Hfind.
  { intros u Hu Hmail.
    apply (find_unique_key users.email _ _ u Hemail Hu).
    intros y. rewrite user_matches_email. by rewrite Hmail. }
  destruct Hfail as [Hnone | u Hu Hmail Hnopw | u p Hu Hmail Hp Hpu Hcmp].
  - replace (List.find _ (db_users db)) with (@None users.row); [done|].
    symmetry. apply find_none_iff. intros u Hu.
    apply not_true_is_false. rewrite user_matches_email. by apply Hnone.
  - rewrite (Hfind u Hu Hmail).
    replace (user_password db u) with (@None passwords.row); [done|].
    symmetry. apply find_none_iff. intros p Hp.
    apply not_true_is_false. rewrite eqb_string_true. by apply Hnopw.
  - rewrite (Hfind u Hu Hmail). unfold user_password.
    rewrite (find_unique_key passwords.userId _ _ p Hpw Hp).
    + by rewrite Hcmp.
    + intros y. rewrite eqb_string_true. by rewrite Hpu.
Qed.

(** C10: when the credential check fails, [login] returns [null] and
    the store it hands back is the store it was given: no session row
    is inserted. *)
Theorem login_failure_store_unchanged now uuid current_timestamp
    db email password :
  verifyUserPassword bcrypt_compare db (mkUserInfo (Some email) None)
                     password = None →
  login bcrypt_compare now uuid current_timestamp db email password
    = Returned (None, db).
Proof. intros Hfail. unfold login. by rewrite Hfail. Qed.

(** A successful [login] adds exactly the new row, with the fixed
    expiration. *)
Lemma login_success now uuid current_timestamp db email password s db' :
  login bcrypt_compare now uuid current_timestamp db email password
    = Returned (Some s, db') →
  ∃ userId,
    verifyUserPassword bcrypt_compare db (mkUserInfo (Some email) None)
                       password = Some userId ∧
    s = sessions.mk uuid (now + SESSION_EXPIRATION_TIME)
                    current_timestamp userId ∧
    db' = mkDb (db_users db) (db_passwords db) (db_sessions db ++ [s])
               (db_verification db) ∧
    sessions_ok (db_users db') (db_sessions db').
Proof.
  unfold login. destruct (verifyUserPassword _ _ _ _) as [uid|]; [|done].
  unfold insert_session. case_decide as Hok; [|done].
  simpl. intros [= <- <-]. exists uid. done.
Qed.


Lemma filter_all {A} (P : A → Prop) `{∀ x, Decision (P x)} (l : list A) :
  (∀ x, x ∈ l → P x) → filter P l = l.
Proof.
  induction l as [|y l IH]; intros Hall; [done|].
  rewrite filter_cons_True by (apply Hall; left).
  f_equal. apply IH. intros x Hx. apply Hall. by right.
Qed.

(** After [delete_sessions] on an id no row has the id, a second
    deletion changes nothing, and so does a deletion of an id that no
    row has. *)
Lemma delete_sessions_by_id db id :
  let db' := delete_sessions (λ s, String.eqb (sessions.id s) id) db in
  (id ∉ (sessions.id <$> db_sessions db')) ∧
  delete_sessions (λ s, String.eqb (sessions.id s) id) db' = db' ∧
  (id ∉ (sessions.id <$> db_sessions db) → db' = db).
Proof.
  simpl. unfold delete_sessions. simpl. repeat split.
  - intros (s & -> & Hs)%list_elem_of_fmap.
    apply list_elem_of_filter in Hs as [Hs _].
    by rewrite String.eqb_refl in Hs.
  - f_equal. apply list_filter_filter_r. done.
  - intros Hnot. destruct db as [us ps ss vs]. simpl in *. f_equal.
    apply filter_all. intros s Hs. apply not_true_is_false.
    rewrite eqb_string_true. intros <-. apply Hnot.
    by apply list_elem_of_fmap_2.
Qed.

(** [logout] by the session id of the cookie: nothing to delete without
    a truthy id, the store's error when the id is no uuid, and the
    deletion by id otherwise. *)
Lemma logout_cases db request redirectTo responseInit :
  logout safeRedirect db request redirectTo responseInit =
    match session_get (getSession AuthCookie request) sessionKey with
    | Some v =>
      if truthy v then
        match uuid_param v with
        | Returned id =>
          Returned (logout_response safeRedirect redirectTo responseInit,
                    delete_sessions (λ s, String.eqb (sessions.id s) id) db)
        | Thrown e => Thrown e
        end
      else Returned (logout_response safeRedirect redirectTo responseInit, db)
    | None => Returned (logout_response safeRedirect redirectTo responseInit, db)
    end.
Proof.
  unfold logout. destruct (session_get _ sessionKey) as [v|]; [|done].
  destruct (truthy v); [|done]. by destruct (uuid_param v).
Qed.

(** A truthy session id that the store does not read as a uuid makes
    the delete statement fail, and [logout] with it: no response is
    built and the cookie is not destroyed. *)
Lemma logout_malformed_raises db request redirectTo responseInit v e :
  session_get (getSession AuthCookie request) sessionKey = Some v →
  truthy v = true →
  uuid_param v = Thrown e →
  logout safeRedirect db request redirectTo responseInit = Thrown e.
Proof.
  intros Hget Htruthy Hparam. rewrite logout_cases, Hget, Htruthy.
  by rewrite Hparam.
Qed.

(** For a session id that the store reads as a uuid, [logout] returns
    its redirect, leaves no row with that id, leaves the store as it is
    when no row had the id, and a second [logout] with the same request
    returns the same response and the same store. *)
Lemma logout_idempotent_on_uuid db request redirectTo responseInit v id :
  session_get (getSession AuthCookie request) sessionKey = Some v →
  uuid_param v = Returned id →
  ∃ r db',
    logout safeRedirect db request redirectTo responseInit
      = Returned (r, db') ∧
    (truthy v = true → id ∉ (sessions.id <$> db_sessions db')) ∧
    (id ∉ (sessions.id <$> db_sessions db) → db' = db) ∧
    logout safeRedirect db' request redirectTo responseInit
      = Returned (r, db').
Proof.
  intros Hget Hparam. rewrite !logout_cases, Hget, Hparam.
  destruct (truthy v) eqn:Htruthy.
  - destruct (delete_sessions_by_id db id) as (Hgone & Hagain & Hsame).
    eexists _, _. split; [done|]. split; [done|]. split; [done|].
    rewrite logout_cases, Hget, Htruthy, Hparam. by rewrite Hagain.
  - eexists _, _. split; [done|]. split; [done|]. split; [done|].
    by rewrite logout_cases, Hget, Htruthy.
Qed.

End auth_server_facts.

(** ** The step-up login *)

Section login_server_facts.
Variable bcrypt_compare : string → string → bool.
Variable twoFAVerificationType : string.
Variable getRedirectToUrl : Request → string → string → option string → Url.
Variable safeRedirect : option string → string.
Variable StringToNumber : string → option Z.

Implicit Types (db : Db) (request : Request) (session : sessions.row).

(** The 2FA branch of [handleNewSession]. *)
Lemma handleNewSession_two_factor db request session redirectTo remember
    responseInit :
  is_Some (find_twoFA twoFAVerificationType db (sessions.userId session)) →
  handleNewSession twoFAVerificationType getRedirectToUrl safeRedirect
      db request session redirectTo remember responseInit =
    let redirectUrl :=
      getRedirectToUrl request twoFAVerificationType
                       (sessions.userId session) redirectTo in
    Returned
      (redirect (pathname redirectUrl +:+ "?" +:+ searchParams redirectUrl)
         (SetCookie VerifyCookie
                    (Some (pending_session session remember)) None
          :: default [] responseInit)).
Proof.
  intros Htwo. unfold handleNewSession.
  rewrite bool_decide_eq_true_2 by done. done.
Qed.

(** The branch of [handleNewSession] without a second factor. *)
Lemma handleNewSession_direct db request session redirectTo remember
    responseInit :
  find_twoFA twoFAVerificationType db (sessions.userId session) = None →
  handleNewSession twoFAVerificationType getRedirectToUrl safeRedirect
      db request session redirectTo remember responseInit =
    Returned
      (redirect (safeRedirect redirectTo)
         (SetCookie AuthCookie
            (Some (<[sessionKey := JsString (sessions.id session)]>
                     (getSession AuthCookie request)))
            (if remember then Some (sessions.expirationDate session)
             else None)
          :: default [] responseInit)).
Proof.
  intros Hnone. unfold handleNewSession. rewrite Hnone.
  rewrite bool_decide_eq_false_2 by (by intros [? ?]). done.
Qed.

Lemma receive_keeps_auth (c : Client) (hs : list Header) :
  Forall (λ h, sets_auth_cookie h = false) hs →
  client_auth (foldl receive_header c hs) = client_auth c.
Proof.
  revert c. induction hs as [|h hs IH]; intros c Hall; [done|].
  apply Forall_cons in Hall as [Hh Hall]. simpl.
  rewrite IH by done. by destruct h as [[] ? ?|? ?].
Qed.

(** A request without a session id in its authenticated cookie resolves
    to nobody, whatever else it carries. *)
Lemma getUserId_unbound now db request :
  session_get (getSession AuthCookie request) sessionKey = None →
  getUserId now db request = Returned None.
Proof. intros Hnone. unfold getUserId. by rewrite Hnone. Qed.

(** [getUserId] reads nothing of the client but its authenticated
    cookie. *)
Lemma getUserId_same_auth now db (c c' : Client) (u u' : string) :
  client_auth c = client_auth c' →
  getUserId now db (request_of c u) = getUserId now db (request_of c' u').
Proof. intros Heq. unfold getUserId, request_of. simpl. by rewrite Heq. Qed.

(** C3: when the user has an enrolled second factor, the only header
    [handleNewSession] adds to those of [responseInit] commits the
    pending session, which holds [unverified-session-id] and [remember]
    and no [sessionId].  Unless [responseInit] itself writes the
    authenticated cookie, a client that receives the response keeps the
    authenticated cookie it had, and its next request resolves to the
    same user or to nobody as before. *)
Theorem handleNewSession_pending_only db request session redirectTo
    remember responseInit :
  is_Some (find_twoFA twoFAVerificationType db (sessions.userId session)) →
  ∃ r,
    handleNewSession twoFAVerificationType getRedirectToUrl safeRedirect
        db request session redirectTo remember responseInit = Returned r ∧
    headers r =
      SetCookie VerifyCookie (Some (pending_session session remember)) None
      :: default [] responseInit ∧
    pending_session session remember !! unverifiedSessionIdKey
      = Some (JsString (sessions.id session)) ∧
    pending_session session remember !! rememberKey
      = Some (JsBool remember) ∧
    dom (pending_session session remember)
      = {[unverifiedSessionIdKey; rememberKey]} ∧
    (Forall (λ h, sets_auth_cookie h = false) (default [] responseInit) →
     ∀ c : Client,
       client_auth (receive c r) = client_auth c ∧
       ∀ now' db' u u',
         getUserId now' db' (request_of (receive c r) u')
           = getUserId now' db' (request_of c u)).
Proof.
  intros Htwo. eexists. split.
  { by apply handleNewSession_two_factor. }
  simpl. split; [done|]. split; [done|]. split; [done|]. split.
  { unfold pending_session. rewrite !dom_insert_L, dom_empty_L.
    set_solver. }
  intros Hinit c.
  assert (client_auth (receive c
            (redirect
               (pathname (getRedirectToUrl request twoFAVerificationType
                            (sessions.userId session) redirectTo)
                +:+ "?" +:+
                searchParams (getRedirectToUrl request twoFAVerificationType
                                (sessions.userId session) redirectTo))
               (SetCookie VerifyCookie
                  (Some (pending_session session remember)) None
                :: default [] responseInit)))
          = client_auth c) as Hauth.
  { unfold receive. apply receive_keeps_auth. by constructor. }
  split; [done|]. intros now' db' u u'. by apply getUserId_same_auth.
Qed.

(** [handleVerification] on a pending session whose row is found. *)
Lemma handleVerification_promotes now db request redirectTo sid id
    existing :
  session_get (getSession VerifyCookie request) unverifiedSessionIdKey
    = Some sid →
  truthy sid = true →
  uuid_param sid = Returned id →
  List.find (λ s, String.eqb (sessions.id s) id) (db_sessions db)
    = Some existing →
  handleVerification safeRedirect now db request
                     (SubmissionSuccess redirectTo) =
    Returned
      (redirect (safeRedirect redirectTo)
         [SetCookie AuthCookie
            (Some (<[sessionKey := sid]>
                     (<[verifiedTimeKey := JsNumber now]>
                        (getSession AuthCookie request))))
            (if truthy_opt
                  (session_get (getSession VerifyCookie request) rememberKey)
             then Some (sessions.expirationDate existing) else None);
          SetCookie VerifyCookie None (Some 0)]).
Proof.
  intros Hget Htruthy Hparam Hfind. unfold handleVerification.
  rewrite Hget, Htruthy, Hparam. simpl. by rewrite Hfind.
Qed.

(** A truthy pending id that the store does not read as a uuid makes the
    query fail, and [handleVerification] with it; nothing is bound. *)
Lemma handleVerification_malformed_pending now db request redirectTo sid e :
  session_get (getSession VerifyCookie request) unverifiedSessionIdKey
    = Some sid →
  truthy sid = true →
  uuid_param sid = Thrown e →
  handleVerification safeRedirect now db request
                     (SubmissionSuccess redirectTo) = Thrown e.
Proof.
  intros Hget Htruthy Hparam. unfold handleVerification.
  rewrite Hget, Htruthy, Hparam. done.
Qed.


(** C2: after a [login] that created the candidate row [s] for a user
    with an enrolled second factor, [handleNewSession] parks the id of
    [s] in the pending cookie; when the client then submits the step-up
    form successfully and a row with that id is still stored,
    [handleVerification] binds that same id into the authenticated
    cookie. *)
Theorem step_up_promotes_candidate now uuid current_timestamp db email
    password s db1 request redirectTo remember (c : Client)
    now2 db2 url2 redirectTo2 :
  login bcrypt_compare now uuid current_timestamp db email password
    = Returned (Some s, db1) →
  is_Some (find_twoFA twoFAVerificationType db1 (sessions.userId s)) →
  sessions.id s ∈ (sessions.id <$> db_sessions db2) →
  ∃ r1 r2,
    s ∈ db_sessions db1 ∧ sessions.id s = uuid ∧
    handleNewSession twoFAVerificationType getRedirectToUrl safeRedirect
        db1 request s redirectTo remember None = Returned r1 ∧
    (client_verify (receive c r1) ≫= λ v, v !! unverifiedSessionIdKey)
      = Some (JsString (sessions.id s)) ∧
    client_auth (receive c r1) = client_auth c ∧
    handleVerification safeRedirect now2 db2
        (request_of (receive c r1) url2) (SubmissionSuccess redirectTo2)
      = Returned r2 ∧
    bound_session (receive (receive c r1) r2)
      = Some (JsString (sessions.id s)).
Proof.
  intros Hlogin Htwo Hstill.
  destruct (login_success bcrypt_compare _ _ _ _ _ _ _ _ Hlogin)
    as (uid & _ & Hs & Hdb1 & Hok).
  assert (s ∈ db_sessions db1) as Hin.
  { rewrite Hdb1. simpl. apply elem_of_app. right. by left. }
  pose proof (sessions_ok_typed _ _ s Hok Hin) as Htyped.
  apply list_elem_of_fmap in Hstill as (s2 & Hid & Hs2).
  destruct (find_is_some
              (λ x, String.eqb (sessions.id x) (sessions.id s))
              (db_sessions db2) s2 Hs2) as [existing Hfind].
  { apply eqb_string_true. by rewrite Hid. }
  eexists _, _. split; [done|]. split; [by rewrite Hs|]. split.
  { by apply handleNewSession_two_factor. }
  split; [done|]. split; [done|]. split.
  { apply (handleVerification_promotes _ _ _ _
             (JsString (sessions.id s)) (sessions.id s) existing);
      [done | by apply uuid_typed_truthy | by apply uuid_typed_param
      | done]. }
  unfold bound_session, receive, session_get. simpl.
  by rewrite lookup_insert_eq.
Qed.

(** What [shouldRequestTwoFA] answers for a user with an enrolled second
    factor, a live session and no pending step-up: the stamp, or the
    epoch when there is none, is compared with 120000 ms. *)
Lemma shouldRequestTwoFA_threshold t_query now db request s :
  sessions_ok (db_users db) (db_sessions db) →
  s ∈ db_sessions db →
  session_get (getSession AuthCookie request) sessionKey
    = Some (JsString (sessions.id s)) →
  t_query < sessions.expirationDate s →
  sessions.userId s ≠ ""%string →
  is_Some (find_twoFA twoFAVerificationType db (sessions.userId s)) →
  session_get (getSession VerifyCookie request) unverifiedSessionIdKey
    = None →
  ∀ stamp,
    session_get (getSession AuthCookie request) verifiedTimeKey
      = JsNumber <$> stamp →
    shouldRequestTwoFA twoFAVerificationType StringToNumber
                       t_query now db request
      = Returned (bool_decide (now - default 0 stamp > 120000)).
Proof.
  intros Hok Hs Hsid Hlive Huid Htwo Hnopending stamp Hstamp.
  unfold shouldRequestTwoFA, session_has. rewrite Hstamp.
  unfold session_get in Hnopending. rewrite Hnopending.
  rewrite bool_decide_eq_false_2 by (by intros [? ?]).
  rewrite (getUserId_presented t_query db request s Hok Hs Hsid).
  rewrite bool_decide_eq_true_2 by done. simpl.
  apply String.eqb_neq in Huid. rewrite Huid. simpl.
  rewrite bool_decide_eq_true_2 by done. simpl.
  by destruct stamp.
Qed.

End login_server_facts.

(** ** The uniqueness constraint of the verification table *)

Section verification_facts.
Implicit Types (rows : list verification.row) (st : VerificationStmt).

Lemma verification_ok_sublist rows rows' :
  rows' `sublist_of` rows → verification_ok rows → verification_ok rows'.
Proof.
  intros Hsub (Hid & Huuid & Hkey). repeat split.
  - eapply sublist_NoDup; [exact Hid | by apply fmap_sublist].
  - rewrite Forall_forall in *. intros x Hx. apply Huuid.
    eapply elem_of_sublist; [exact Hx | by apply fmap_sublist].
  - eapply sublist_NoDup; [exact Hkey | by apply fmap_sublist].
Qed.

Lemma checked_verification_ok rows rows' :
  checked_verification rows = Returned rows' → verification_ok rows'.
Proof.
  unfold checked_verification. case_decide; [|done]. by intros [= <-].
Qed.

(** A statement that succeeds leaves a table that satisfies the
    constraints. *)
Lemma exec_verification_ok st rows rows' :
  verification_ok rows →
  exec_verification st rows = Returned rows' →
  verification_ok rows'.
Proof.
  intros Hok. destruct st as [row|row set|cond set|cond]; simpl.
  - apply checked_verification_ok.
  - destruct (existsb _ rows); apply checked_verification_ok.
  - apply checked_verification_ok.
  - intros [= <-]. eapply verification_ok_sublist; [|exact Hok].
    apply sublist_filter.
Qed.

Lemma step_verification_ok st rows :
  verification_ok rows → verification_ok (step_verification rows st).
Proof.
  intros Hok. unfold step_verification.
  destruct (exec_verification st rows) as [rows'|e] eqn:Hexec; [|done].
  by apply (exec_verification_ok st rows).
Qed.

Lemma run_verification_ok (stmts : list VerificationStmt) :
  verification_ok (run_verification stmts).
Proof.
  unfold run_verification.
  assert (verification_ok []) as Hnil.
  { repeat split; constructor. }
  revert Hnil. generalize (@nil verification.row).
  induction stmts as [|st stmts IH]; intros rows Hok; [done|].
  simpl. apply IH. by apply step_verification_ok.
Qed.

(** The constraint does refuse a second row for a pair. *)
Lemma insert_duplicate_refused row rows :
  verification_key row ∈ (verification_key <$> rows) →
  exec_verification (VInsert row) rows
    = Thrown (StoreError "verification").
Proof.
  intros Hdup. simpl. unfold checked_verification.
  case_decide as Hok; [|done]. exfalso.
  destruct Hok as (_ & _ & Hkey).
  rewrite fmap_app in Hkey. apply NoDup_app in Hkey as (_ & Hdisj & _).
  apply (Hdisj _ Hdup). by left.
Qed.

Lemma unique_key_at_most_one {A K : Type} `{EqDecision K} (key : A → K)
    (k : K) (l : list A) :
  NoDup (key <$> l) → (length (filter (λ x, key x = k) l) ≤ 1)%nat.
Proof.
  induction l as [|x l IH]; [simpl; lia|].
  rewrite fmap_cons, NoDup_cons. intros [Hx Hnd].
  rewrite filter_cons. case_decide as Hk; [|by apply IH].
  destruct (filter (λ y, key y = k) l) as [|y l'] eqn:Hf; [simpl; lia|].
  exfalso. assert (y ∈ filter (λ y, key y = k) l) as Hy
    by (rewrite Hf; left).
  apply list_elem_of_filter in Hy as [Hyk Hy]. apply Hx.
  rewrite Hk, <- Hyk. by apply list_elem_of_fmap_2.
Qed.

(** C7: whatever statements the store has executed on the verification
    table, in whatever order the statements of different requests were
    interleaved, the table holds at most one row for every
    [(target, type)] pair. *)
Theorem verification_at_most_one_per_pair
    (stmts : list VerificationStmt) (target type : string) :
  (length (rows_for target type (run_verification stmts)) ≤ 1)%nat.
Proof.
  destruct (run_verification_ok stmts) as (_ & _ & Hkey).
  by apply unique_key_at_most_one.
Qed.

End verification_facts.


(** ** The session's expiration and the cookie's *)

Section remember_facts.
Variable bcrypt_compare : string → string → bool.
Variable bcrypt_hash : string → Z → string → string.
Variable toLowerCase : string → string.
Variable twoFAVerificationType : string.
Variable getRedirectToUrl : Request → string → string → option string → Url.
Variable safeRedirect : option string → string.


End remember_facts.

(** * Further properties *)

(** ** Session resolution, continued *)

Lemma getUserId_falsy now db request :
  truthy_opt (session_get (getSession AuthCookie request) sessionKey) = false →
  getUserId now db request = Returned None.
Proof.
  unfold getUserId. destruct (session_get _ sessionKey) as [sid|]; [|done].
  simpl. by intros ->.
Qed.

Lemma session_user_spec db s u :
  session_user db s = Some u →
  u ∈ db_users db ∧ users.id u = sessions.userId s.
Proof.
  intros [Hu Heq]%find_some_spec. split; [done|]. by apply eqb_string_true.
Qed.

(** With a truthy session id in the cookie, [getUserId] never returns
    [null]: it throws the store's error when the id is no uuid, throws the
    revoking redirect, or returns the id of a stored user. *)
Lemma getUserId_truthy now db request sid :
  session_get (getSession AuthCookie request) sessionKey = Some sid →
  truthy sid = true →
  (∃ e, uuid_param sid = Thrown e ∧ getUserId now db request = Thrown e) ∨
  getUserId now db request
    = Thrown (ThrowRedirect (redirect "/" [destroySession AuthCookie])) ∨
  ∃ uid, getUserId now db request = Returned (Some uid) ∧
         uid ∈ (users.id <$> db_users db).
Proof.
  intros Hget Htruthy. unfold getUserId. rewrite Hget, Htruthy. simpl.
  destruct (uuid_param sid) as [id|e]; [|left; by exists e].
  right. simpl.
  destruct (List.find _ (db_sessions db)) as [s|]; [|by left]. simpl.
  destruct (session_user db s) as [u|] eqn:Hu; [|by left].
  right. exists (users.id u). split; [done|].
  apply session_user_spec in Hu as [Hu _]. by apply list_elem_of_fmap_2.
Qed.

Lemma getUserId_only_live_rows now db request uid :
  getUserId now db request = Returned (Some uid) →
  uid ∈ (users.id <$> db_users db).
Proof.
  intros Hget.
  destruct (getUserId_sound now db request uid Hget)
    as (s & text & _ & _ & _ & _ & _ & u & Hu & Hid).
  apply session_user_spec in Hu as [Hu _].
  rewrite <- Hid. by apply list_elem_of_fmap_2.
Qed.

Lemma users_ok_id_typed (us : list users.row) (uid : string) :
  users_ok us → uid ∈ (users.id <$> us) → uuid_typed uid.
Proof.
  intros (_ & Huuid & _) Hin. rewrite Forall_forall in Huuid.
  by apply Huuid.
Qed.

Lemma users_ok_id_nonempty (us : list users.row) (uid : string) :
  users_ok us → uid ∈ (users.id <$> us) → truthy (JsString uid) = true.
Proof.
  intros Hok Hin. apply uuid_typed_truthy. by apply (users_ok_id_typed us).
Qed.

(** X1: [getUserId] yields a user id only when the cookie presents a
    non-empty text that the store reads as the id of a stored session
    row, the row has not expired, the user owns it, and the user is
    stored. *)
Theorem getUserId_only_live_sessions now db request uid :
  getUserId now db request = Returned (Some uid) →
  ∃ s text, s ∈ db_sessions db ∧
       session_get (getSession AuthCookie request) sessionKey
         = Some (JsString text) ∧
       text ≠ ""%string ∧
       uuid_in text = Some (sessions.id s) ∧
       now < sessions.expirationDate s ∧
       sessions.userId s = uid ∧
       uid ∈ (users.id <$> db_users db).
Proof.
  intros Hget.
  destruct (getUserId_sound now db request uid Hget)
    as (s & text & Hs & Hsid & Hne & Hin & Hlive & u & Hu & Hid).
  apply session_user_spec in Hu as [Hu Hown].
  exists s, text. do 5 (split; [done|]). split; [congruence|].
  rewrite <- Hid. by apply list_elem_of_fmap_2.
Qed.

(** With a truthy session id that the store reads as a uuid for which
    every row is missing or expired, [getUserId] throws the revoking
    redirect. *)
Lemma getUserId_dead now db request sid id :
  session_get (getSession AuthCookie request) sessionKey = Some sid →
  truthy sid = true →
  uuid_param sid = Returned id →
  (∀ s, s ∈ db_sessions db → sessions.id s = id →
        sessions.expirationDate s ≤ now) →
  getUserId now db request
    = Thrown (ThrowRedirect (redirect "/" [destroySession AuthCookie])).
Proof.
  intros Hsid Htruthy Hparam Hdead.
  unfold getUserId. rewrite Hsid, Htruthy, Hparam. simpl.
  replace (List.find _ (db_sessions db)) with (@None sessions.row); [done|].
  symmetry. apply find_none_iff. intros s Hs.
  apply andb_false_iff.
  destruct (String.eqb (sessions.id s) id) eqn:Heq; [right | by left].
  apply eqb_string_true in Heq. apply Z.ltb_ge. by apply Hdead.
Qed.

(** With a truthy session id that the store does not read as a uuid,
    the query fails and [getUserId] with it; no cookie is revoked. *)
Lemma getUserId_malformed now db request sid e :
  session_get (getSession AuthCookie request) sessionKey = Some sid →
  truthy sid = true →
  uuid_param sid = Thrown e →
  getUserId now db request = Thrown e.
Proof.
  intros Hsid Htruthy Hparam. unfold getUserId.
  by rewrite Hsid, Htruthy, Hparam.
Qed.

(** X2: a truthy session id for which every row the store matches with
    it is missing or expired never resolves: when the store reads the id
    as a uuid, [getUserId] throws the redirect to ["/"] that destroys the
    authenticated cookie, and a client that receives it resolves to
    nobody afterwards, at any time and against any store; when the id is
    no uuid, [getUserId] fails with the store's error and nothing is
    revoked. *)
Theorem getUserId_dead_session_revokes now db request sid :
  session_get (getSession AuthCookie request) sessionKey = Some sid →
  truthy sid = true →
  (∀ id s, uuid_param sid = Returned id →
           s ∈ db_sessions db → sessions.id s = id →
           sessions.expirationDate s ≤ now) →
  getUserId now db request =
    match uuid_param sid with
    | Returned _ =>
      Thrown (ThrowRedirect (redirect "/" [destroySession AuthCookie]))
    | Thrown e => Thrown e
    end ∧
  ∀ (c : Client) now' db' u,
    getUserId now' db'
      (request_of (receive c (redirect "/" [destroySession AuthCookie])) u)
      = Returned None.
Proof.
  intros Hsid Htruthy Hdead. split; [|done].
  destruct (uuid_param sid) as [id|e] eqn:Hparam.
  - apply (getUserId_dead now db request sid id); try done.
    intros s. by apply Hdead.
  - by apply (getUserId_malformed now db request sid e).
Qed.

Lemma requireAnonymous_passes now db request :
  truthy_opt (session_get (getSession AuthCookie request) sessionKey) = false →
  requireAnonymous now db request = Returned tt.
Proof.
  intros Hfalsy. unfold requireAnonymous.
  by rewrite (getUserId_falsy now db request Hfalsy).
Qed.

(** With a truthy session id [requireAnonymous] throws: a redirect to
    ["/"], or the store's error when the id is no uuid. *)
Lemma requireAnonymous_throws now db request :
  users_ok (db_users db) →
  truthy_opt (session_get (getSession AuthCookie request) sessionKey) = true →
  ∃ e, requireAnonymous now db request = Thrown e ∧
       ((∃ hs, e = ThrowRedirect (redirect "/" hs)) ∨
        (∃ sid, session_get (getSession AuthCookie request) sessionKey
                  = Some sid ∧ uuid_param sid = Thrown e)).
Proof.
  intros Hok Htruthy. unfold requireAnonymous.
  destruct (session_get _ sessionKey) as [sid|] eqn:Hget; [|done].
  simpl in Htruthy.
  destruct (getUserId_truthy now db request sid Hget Htruthy)
    as [(e & Hparam & ->) | [-> | (uid & -> & Hin)]].
  - exists e. split; [done|]. right. by exists sid.
  - eexists. split; [done|]. left. by eexists.
  - simpl. unfold truthy_id. simpl.
    pose proof (users_ok_id_nonempty _ _ Hok Hin) as Hne.
    simpl in Hne. rewrite Hne. eexists. split; [done|]. left. by eexists.
Qed.

(** X3: [requireAnonymous] lets a request pass exactly when its cookie
    holds no truthy session id; with one it throws, whether the session
    is live or dead: a redirect to ["/"], or the store's error when the
    id is no uuid. *)
Theorem requireAnonymous_iff now db request :
  users_ok (db_users db) →
  (requireAnonymous now db request = Returned tt ↔
   truthy_opt (session_get (getSession AuthCookie request) sessionKey)
     = false) ∧
  (truthy_opt (session_get (getSession AuthCookie request) sessionKey)
     = true →
   ∃ e, requireAnonymous now db request = Thrown e ∧
        ((∃ hs, e = ThrowRedirect (redirect "/" hs)) ∨
         (∃ sid, session_get (getSession AuthCookie request) sessionKey
                   = Some sid ∧ uuid_param sid = Thrown e))).
Proof.
  intros Hok. split; [|by apply requireAnonymous_throws].
  destruct (truthy_opt (session_get _ sessionKey)) eqn:Htruthy.
  - split; [|done].
    destruct (requireAnonymous_throws now db request Hok Htruthy)
      as (e & -> & _).
    done.
  - by rewrite (requireAnonymous_passes now db request Htruthy).
Qed.

Section requireUserId_facts.
Variable path_and_search : string → string.
Variable login_params : string → string.

(** The location [requireUserId] redirects an unauthenticated request
    to. *)
Lemma login_location (target : option string) :
  join_truthy "?" [Some "/accounts/login"%string;
                   if nonempty target then login_params <$> target else None]
  = match target with
    | Some r =>
      if String.eqb r "" || String.eqb (login_params r) ""
      then "/accounts/login"%string
      else ("/accounts/login?" +:+ login_params r)%string
    | None => "/accounts/login"%string
    end.
Proof.
  destruct target as [r|]; [|done]. unfold join_truthy, nonempty. simpl.
  destruct (String.eqb r "") eqn:Hr; simpl; [done|].
  by destruct (String.eqb (login_params r) "").
Qed.

(** X4: for a store that satisfies the schema, a request presenting the
    id of a live session row gets the owner's id from [requireUserId],
    whatever [redirectTo] is. *)
Theorem requireUserId_live now db request redirectTo s :
  users_ok (db_users db) →
  sessions_ok (db_users db) (db_sessions db) →
  s ∈ db_sessions db →
  session_get (getSession AuthCookie request) sessionKey
    = Some (JsString (sessions.id s)) →
  now < sessions.expirationDate s →
  requireUserId path_and_search login_params now db request redirectTo
    = Returned (sessions.userId s).
Proof.
  intros Husers Hok Hs Hsid Hlive. unfold requireUserId.
  rewrite (getUserId_presented now db request s Hok Hs Hsid).
  rewrite bool_decide_eq_true_2 by done. simpl.
  destruct Hok as (_ & _ & Hfk). rewrite Forall_forall in Hfk.
  pose proof (users_ok_id_nonempty _ _ Husers (Hfk s Hs)) as Hne.
  simpl in Hne. by rewrite Hne.
Qed.

(** X5: a request without a truthy session id is sent to the login page
    by a redirect that writes no cookie: to ["/accounts/login"] alone when
    [redirectTo] is [null] or empty, and with the encoded target after
    ["?"] otherwise, the target defaulting to the path and query of the
    request. *)
Theorem requireUserId_anonymous now db request redirectTo :
  truthy_opt (session_get (getSession AuthCookie request) sessionKey) = false →
  requireUserId path_and_search login_params now db request redirectTo =
    Thrown (ThrowRedirect (redirect
      match redirectTo with
      | Some None => "/accounts/login"%string
      | Some (Some r) =>
        if String.eqb r "" || String.eqb (login_params r) ""
        then "/accounts/login"%string
        else ("/accounts/login?" +:+ login_params r)%string
      | None =>
        let r := path_and_search (url request) in
        if String.eqb r "" || String.eqb (login_params r) ""
        then "/accounts/login"%string
        else ("/accounts/login?" +:+ login_params r)%string
      end [])).
Proof.
  intros Hanon. unfold requireUserId.
  rewrite (getUserId_falsy now db request Hanon). simpl.
  rewrite login_location. by destruct redirectTo as [[r|]|].
Qed.

End requireUserId_facts.

(** ** Credentials, signup and password reset *)

Section credentials_facts.
Variable bcrypt_compare : string → string → bool.
Variable bcrypt_hash : string → Z → string → string.
Variable safeRedirect : option string → string.
Variable toLowerCase : string → string.

Implicit Types (db : Db) (email password : string).

(** The check on the one user and the one password row the schema allows
    for an email. *)
Lemma verifyUserPassword_of_rows db email password u p :
  users_ok (db_users db) →
  passwords_ok (db_users db) (db_passwords db) →
  email ≠ ""%string →
  u ∈ db_users db → users.email u = email →
  p ∈ db_passwords db → passwords.userId p = users.id u →
  verifyUserPassword bcrypt_compare db (mkUserInfo (Some email) None)
                     password =
    if bcrypt_compare password (passwords.hash p)
    then Some (users.id u) else None.
Proof.
  intros (_ & _ & Hemail) (Hpw & _) Hne Hu Hmail Hp Hpu.
  rewrite verifyUserPassword_by_email by done.
  rewrite (find_unique_key users.email _ _ u Hemail Hu).
  2:{ intros y. rewrite user_matches_email. by rewrite Hmail. }
  unfold user_password.
  rewrite (find_unique_key passwords.userId _ _ p Hpw Hp); [done|].
  intros y. rewrite eqb_string_true. by rewrite Hpu.
Qed.

Lemma verifyUserPassword_rows db email password uid :
  verifyUserPassword bcrypt_compare db (mkUserInfo (Some email) None)
                     password = Some uid →
  email ≠ ""%string ∧
  ∃ u p, u ∈ db_users db ∧ users.email u = email ∧ users.id u = uid ∧
         p ∈ db_passwords db ∧ passwords.userId p = uid ∧
         bcrypt_compare password (passwords.hash p) = true.
Proof.
  destruct (decide (email = ""%string)) as [->|Hne]; [done|].
  rewrite verifyUserPassword_by_email by done.
  destruct (List.find _ (db_users db)) as [u|] eqn:Hu; [|done].
  destruct (user_password db u) as [p|] eqn:Hp; [|done].
  destruct (bcrypt_compare password (passwords.hash p)) eqn:Hcmp; [|done].
  intros [= <-]. split; [done|].
  apply find_some_spec in Hu as [Hu Hmail].
  apply user_matches_email in Hmail.
  apply find_some_spec in Hp as [Hp Hpu]. apply eqb_string_true in Hpu.
  exists u, p. done.
Qed.

(** X6: in a store that satisfies the schema, the check on a non-empty
    email returns a user id exactly when that id belongs to the user with
    the email and the user's stored hash matches the password. *)
Theorem verifyUserPassword_some_iff db email password uid :
  users_ok (db_users db) →
  passwords_ok (db_users db) (db_passwords db) →
  email ≠ ""%string →
  verifyUserPassword bcrypt_compare db (mkUserInfo (Some email) None)
                     password = Some uid ↔
  ∃ u p, u ∈ db_users db ∧ users.email u = email ∧ users.id u = uid ∧
         p ∈ db_passwords db ∧ passwords.userId p = uid ∧
         bcrypt_compare password (passwords.hash p) = true.
Proof.
  intros Hus Hps Hne. split.
  - by intros [_ H]%verifyUserPassword_rows.
  - intros (u & p & Hu & Hmail & Hid & Hp & Hpu & Hcmp).
    rewrite (verifyUserPassword_of_rows db email password u p)
      by (done || congruence).
    rewrite Hcmp. by rewrite Hid.
Qed.

(** X7: [login] keeps the schema's constraints, touches no table but
    [sessions], and a session it returns is the one new row, owned by
    the user who has the email. *)
Theorem login_keeps_schema now uuid current_timestamp db email password
    result db' :
  Db_ok db →
  login bcrypt_compare now uuid current_timestamp db email password
    = Returned (result, db') →
  Db_ok db' ∧
  db_users db' = db_users db ∧
  db_passwords db' = db_passwords db ∧
  db_verification db' = db_verification db ∧
  match result with
  | None => db_sessions db' = db_sessions db
  | Some s =>
    db_sessions db' = db_sessions db ++ [s] ∧
    sessions.id s = uuid ∧
    ∃ u, u ∈ db_users db ∧ users.email u = email ∧
         users.id u = sessions.userId s
  end.
Proof.
  intros (Hus & Hps & Hss & Hvs) Hlogin. destruct result as [s|].
  - destruct (login_success bcrypt_compare _ _ _ _ _ _ _ _ Hlogin)
      as (uid & Hverify & Hs & -> & Hss').
    simpl in *.
    split; [split; [exact Hus|]; split; [exact Hps|]; split; [exact Hss'|exact Hvs]|].
    do 3 (split; [done|]).
    split; [done|]. split; [by rewrite Hs|].
    apply verifyUserPassword_rows in Hverify
      as (_ & u & p & Hu & Hmail & Hid & _).
    exists u. by rewrite Hs.
  - unfold login in Hlogin.
    destruct (verifyUserPassword _ _ _ _) as [uid|].
    + unfold insert_session in Hlogin. by case_decide.
    + by injection Hlogin as <-.
Qed.

(** X8: with valid credentials and a uuid that a session row already
    has, [login] fails on the primary key and hands back no store. *)
Theorem login_uuid_collision now uuid current_timestamp db email password
    uid :
  verifyUserPassword bcrypt_compare db (mkUserInfo (Some email) None)
                     password = Some uid →
  uuid ∈ (sessions.id <$> db_sessions db) →
  login bcrypt_compare now uuid current_timestamp db email password
    = Thrown (StoreError "sessions").
Proof.
  intros Hverify Hdup. unfold login. rewrite Hverify.
  unfold insert_session. case_decide as Hok; [|done]. exfalso.
  destruct Hok as (Hnd & _). rewrite fmap_app in Hnd.
  apply NoDup_app in Hnd as (_ & Hdisj & _).
  apply (Hdisj _ Hdup). by left.
Qed.

Lemma sessions_ok_snoc (us : list users.row) (rows : list sessions.row)
    (s : sessions.row) :
  sessions_ok us rows →
  sessions.id s ∉ (sessions.id <$> rows) →
  uuid_typed (sessions.id s) →
  sessions.userId s ∈ (users.id <$> us) →
  sessions_ok us (rows ++ [s]).
Proof.
  intros (Hnd & Huuid & Hfk) Hfresh Hne Hown. repeat split.
  - rewrite fmap_app. apply NoDup_app. split; [done|]. split.
    + intros x Hx [->|Hnil]%elem_of_cons; [done | inversion Hnil].
    + apply NoDup_singleton.
  - rewrite fmap_app. apply Forall_app. split; [done|].
    constructor; [done | constructor].
  - apply Forall_app. split; [done|]. constructor; [done | constructor].
Qed.

(** What a successful [signup] has done. *)
Lemma signup_success now userUuid sessionUuid salt current_timestamp db
    email name sentPassword s db' :
  signup bcrypt_hash toLowerCase now userUuid sessionUuid salt
         current_timestamp db email name sentPassword = Returned (s, db') →
  let u := users.mk userUuid (toLowerCase email) (Some name)
                    current_timestamp true in
  let p := passwords.mk (bcrypt_hash sentPassword 10 salt) userUuid in
  s = sessions.mk sessionUuid (now + SESSION_EXPIRATION_TIME)
                  current_timestamp userUuid ∧
  db' = mkDb (db_users db ++ [u]) (db_passwords db ++ [p])
             (db_sessions db ++ [s]) (db_verification db) ∧
  users_ok (db_users db') ∧
  passwords_ok (db_users db') (db_passwords db') ∧
  sessions_ok (db_users db') (db_sessions db').
Proof.
  unfold signup, insert_user, insert_password, insert_session.
  case_decide as Hus; [|done]. simpl.
  case_decide as Hps; [|done]. simpl.
  case_decide as Hss; [|done]. simpl.
  intros [= <- <-]. done.
Qed.

(** X9: a successful [signup] keeps the schema's constraints, keeps every
    row that was stored, and adds one user with the lower-cased email and
    a confirmed address, that user's password row and a session the user
    owns. *)
Theorem signup_keeps_schema now userUuid sessionUuid salt current_timestamp
    db email name sentPassword s db' :
  verification_ok (db_verification db) →
  signup bcrypt_hash toLowerCase now userUuid sessionUuid salt
         current_timestamp db email name sentPassword = Returned (s, db') →
  Db_ok db' ∧
  (∃ u, db_users db' = db_users db ++ [u] ∧
        users.id u = sessions.userId s ∧
        users.email u = toLowerCase email ∧
        users.emailConfirmed u = true ∧
        ∃ p, db_passwords db' = db_passwords db ++ [p] ∧
             passwords.userId p = users.id u ∧
             passwords.hash p = getPasswordHash bcrypt_hash salt sentPassword) ∧
  db_sessions db' = db_sessions db ++ [s] ∧
  db_verification db' = db_verification db.
Proof.
  intros Hvs Hsignup.
  destruct (signup_success _ _ _ _ _ _ _ _ _ _ _ Hsignup)
    as (Hs & Hdb & Hus & Hps & Hss).
  split.
  { split; [done|]. split; [done|]. split; [done|]. by rewrite Hdb. }
  rewrite Hdb, Hs. simpl. split; [|done].
  eexists. split; [done|]. simpl. do 3 (split; [done|]).
  eexists. split; [done|]. done.
Qed.

(** X10: [signup] with an email whose lower-cased form a user already
    has fails on the unique email and creates nothing, however the
    email's letters are cased. *)
Theorem signup_email_taken now userUuid sessionUuid salt current_timestamp
    db email name sentPassword :
  toLowerCase email ∈ (users.email <$> db_users db) →
  signup bcrypt_hash toLowerCase now userUuid sessionUuid salt
         current_timestamp db email name sentPassword
    = Thrown (StoreError "users").
Proof.
  intros Htaken. unfold signup, insert_user.
  case_decide as Hok; [|done]. exfalso.
  destruct Hok as (_ & _ & Hnd). rewrite fmap_app in Hnd.
  apply NoDup_app in Hnd as (_ & Hdisj & _).
  apply (Hdisj _ Htaken). by left.
Qed.

(** X11: after a successful [signup], the check on the lower-cased email
    accepts exactly the passwords that [bcrypt.compare] matches with the
    stored hash, and a [login] with the password signed up with, if it
    matches its own hash, and with a fresh uuid returns a session of the
    new user. *)
Theorem signup_then_login now userUuid sessionUuid salt current_timestamp
    db email name sentPassword s db1 now2 uuid2 timestamp2 :
  signup bcrypt_hash toLowerCase now userUuid sessionUuid salt
         current_timestamp db email name sentPassword = Returned (s, db1) →
  toLowerCase email ≠ ""%string →
  bcrypt_compare sentPassword (bcrypt_hash sentPassword 10 salt) = true →
  uuid_typed uuid2 →
  uuid2 ∉ (sessions.id <$> db_sessions db1) →
  (∀ password,
     verifyUserPassword bcrypt_compare db1
       (mkUserInfo (Some (toLowerCase email)) None) password =
     if bcrypt_compare password (bcrypt_hash sentPassword 10 salt)
     then Some (sessions.userId s) else None) ∧
  ∃ s2 db2,
    login bcrypt_compare now2 uuid2 timestamp2 db1 (toLowerCase email)
          sentPassword = Returned (Some s2, db2) ∧
    sessions.userId s2 = sessions.userId s ∧
    sessions.id s2 = uuid2.
Proof.
  intros Hsignup Hmail Hcmp Hne Hfresh.
  destruct (signup_success _ _ _ _ _ _ _ _ _ _ _ Hsignup)
    as (Hs & Hdb & Hus & Hps & Hss).
  set (u := users.mk userUuid (toLowerCase email) (Some name)
                     current_timestamp true) in *.
  set (p := passwords.mk (bcrypt_hash sentPassword 10 salt) userUuid) in *.
  assert (u ∈ db_users db1) as Hu.
  { rewrite Hdb. simpl. apply elem_of_app. right. by left. }
  assert (p ∈ db_passwords db1) as Hp.
  { rewrite Hdb. simpl. apply elem_of_app. right. by left. }
  assert (sessions.userId s = userUuid) as Hown by by rewrite Hs.
  assert (∀ password,
     verifyUserPassword bcrypt_compare db1
       (mkUserInfo (Some (toLowerCase email)) None) password =
     if bcrypt_compare password (bcrypt_hash sentPassword 10 salt)
     then Some (sessions.userId s) else None) as Hverify.
  { intros password.
    rewrite (verifyUserPassword_of_rows db1 _ password u p) by done.
    by rewrite Hown. }
  split; [done|]. unfold login. rewrite Hverify, Hcmp.
  unfold insert_session.
  rewrite decide_True.
  - simpl. eexists _, _. done.
  - apply sessions_ok_snoc; try done. simpl. rewrite Hown.
    by apply (list_elem_of_fmap_2 users.id _ u).
Qed.

Lemma sessions_ok_sublist (us : list users.row)
    (rows rows' : list sessions.row) :
  rows' `sublist_of` rows → sessions_ok us rows → sessions_ok us rows'.
Proof.
  intros Hsub (Hid & Huuid & Hfk). repeat split.
  - eapply sublist_NoDup; [exact Hid | by apply fmap_sublist].
  - rewrite Forall_forall in *. intros x Hx. apply Huuid.
    eapply elem_of_sublist; [exact Hx | by apply fmap_sublist].
  - rewrite Forall_forall in *. intros x Hx. apply Hfk.
    eapply elem_of_sublist; [exact Hx | done].
Qed.

(** X12: when [logout] returns, it has kept the schema's constraints
    and removed nothing but the session row whose id the store reads from
    the cookie's truthy session id: every other session row, of this user
    or another, and every other table stay as they were.  Its response
    destroys the authenticated cookie. *)
Theorem logout_removes_only_presented db request redirectTo responseInit
    r db' :
  Db_ok db →
  logout safeRedirect db request redirectTo responseInit = Returned (r, db') →
  Db_ok db' ∧
  db_users db' = db_users db ∧
  db_passwords db' = db_passwords db ∧
  db_verification db' = db_verification db ∧
  (∀ s, s ∈ db_sessions db' ↔
        s ∈ db_sessions db ∧
        ∀ v, session_get (getSession AuthCookie request) sessionKey = Some v →
             truthy v = true →
             uuid_param v ≠ Returned (sessions.id s)) ∧
  headers r = destroySession AuthCookie :: default [] responseInit.
Proof.
  intros (Hus & Hps & Hss & Hvs) Hout. rewrite logout_cases in Hout.
  destruct (session_get _ sessionKey) as [v|] eqn:Hget.
  - destruct (truthy v) eqn:Htruthy.
    + destruct (uuid_param v) as [id|e] eqn:Hparam; [|done].
      injection Hout as <- <-. simpl. split.
      { split; [done|]. split; [done|]. split; [|done].
        eapply sessions_ok_sublist; [apply sublist_filter | done]. }
      do 3 (split; [done|]). split; [|done].
      intros s. rewrite list_elem_of_filter.
      rewrite <- not_true_iff_false, eqb_string_true. split.
      * intros [Hne Hs]. split; [done|]. intros v' [= <-] _ Hv.
        rewrite Hparam in Hv. congruence.
      * intros [Hs Hne]. split; [|done]. intros <-.
        by apply (Hne v).
    + injection Hout as <- <-.
      split; [done|]. do 3 (split; [done|]). split; [|done].
      intros s. split; [|by intros [? _]]. intros Hs. split; [done|].
      intros v' [= <-] Htrue. congruence.
  - injection Hout as <- <-.
    split; [done|]. do 3 (split; [done|]). split; [|done].
    intros s. split; [by intros Hs | by intros [? _]].
Qed.

(** X13: once [logout] has run on a request with a truthy session id,
    replaying that request, old cookie and all, is answered with the
    revoking redirect at any time; and a client that took the response
    (whose [responseInit] headers do not write the cookie again) resolves
    to nobody. *)
Theorem logout_then_replay db request redirectTo responseInit sid r db' :
  session_get (getSession AuthCookie request) sessionKey = Some sid →
  truthy sid = true →
  logout safeRedirect db request redirectTo responseInit = Returned (r, db') →
  (∀ now, getUserId now db' request
          = Thrown (ThrowRedirect (redirect "/" [destroySession AuthCookie]))) ∧
  (Forall (λ h, sets_auth_cookie h = false) (default [] responseInit) →
   ∀ (c : Client) now db'' u,
     getUserId now db'' (request_of (receive c r) u) = Returned None).
Proof.
  intros Hget Htruthy Hout. rewrite logout_cases in Hout.
  rewrite Hget, Htruthy in Hout.
  destruct (uuid_param sid) as [id|e] eqn:Hparam; [|done].
  injection Hout as <- <-. split.
  - intros now.
    apply (getUserId_dead now _ request sid id Hget Htruthy Hparam).
    intros s Hs Hid. simpl in Hs. apply list_elem_of_filter in Hs as [Hne _].
    apply eqb_string_true in Hid. congruence.
  - intros Hinit c now db'' u. apply getUserId_unbound.
    unfold request_of, getSession. simpl. unfold receive. simpl.
    rewrite receive_keeps_auth by done. done.
Qed.

Lemma reset_rows_userId hash userId rows :
  passwords.userId <$> reset_rows hash userId rows
    = passwords.userId <$> rows.
Proof.
  unfold reset_rows, update_where. rewrite <- list_fmap_compose.
  apply list_fmap_ext. intros i p _. simpl.
  by destruct (String.eqb (passwords.userId p) userId).
Qed.

Lemma reset_rows_ok hash userId us rows :
  passwords_ok us rows → passwords_ok us (reset_rows hash userId rows).
Proof.
  intros (Hnd & Hfk). split.
  - by rewrite reset_rows_userId.
  - apply (Forall_fmap passwords.userId (λ k, k ∈ users.id <$> us)).
    rewrite reset_rows_userId. by apply Forall_fmap.
Qed.

Lemma reset_rows_elem hash userId rows p :
  p ∈ rows →
  (if String.eqb (passwords.userId p) userId
   then passwords.mk hash (passwords.userId p) else p)
    ∈ reset_rows hash userId rows.
Proof.
  intros Hp. unfold reset_rows, update_where.
  by apply (list_elem_of_fmap_2
              (λ r, if String.eqb (passwords.userId r) userId
                    then passwords.mk hash (passwords.userId r) else r)).
Qed.

Lemma resetUserPassword_returns salt db userId id newPassword :
  uuid_in userId = Some id →
  passwords_ok (db_users db) (db_passwords db) →
  resetUserPassword bcrypt_hash salt db userId newPassword =
    Returned (mkDb (db_users db)
                   (reset_rows (bcrypt_hash newPassword 10 salt) id
                               (db_passwords db))
                   (db_sessions db) (db_verification db)).
Proof.
  intros Hin Hok.
  unfold resetUserPassword, update_passwords, getPasswordHash, uuid_param.
  rewrite Hin. simpl.
  rewrite decide_True; [done|]. by apply reset_rows_ok.
Qed.

(** An id the store does not read as a uuid makes the update statement
    fail. *)
Lemma resetUserPassword_malformed salt db userId newPassword :
  uuid_in userId = None →
  resetUserPassword bcrypt_hash salt db userId newPassword =
    Thrown (StoreError "invalid input syntax for type uuid").
Proof.
  intros Hin. unfold resetUserPassword, uuid_param. by rewrite Hin.
Qed.

Lemma reset_rows_find_other hash userId k rows :
  k ≠ userId →
  List.find (λ p, String.eqb (passwords.userId p) k)
            (reset_rows hash userId rows)
    = List.find (λ p, String.eqb (passwords.userId p) k) rows.
Proof.
  intros Hne. induction rows as [|p rows IH]; [done|].
  unfold reset_rows, update_where in *. rewrite fmap_cons. simpl.
  destruct (String.eqb (passwords.userId p) userId) eqn:Hp; simpl.
  - apply eqb_string_true in Hp.
    assert (String.eqb (passwords.userId p) k = false) as ->
      by (apply String.eqb_neq; congruence).
    done.
  - by rewrite IH.
Qed.

(** Two stored users with one id are one user. *)
Lemma users_ok_same_id (us : list users.row) (u u2 : users.row) :
  users_ok us → u ∈ us → u2 ∈ us → users.id u2 = users.id u → u2 = u.
Proof.
  intros (Hnd & _) Hu Hu2 Hid.
  pose proof (find_unique_key users.id
                (λ y, String.eqb (users.id y) (users.id u)) us u Hnd Hu) as H1.
  pose proof (find_unique_key users.id
                (λ y, String.eqb (users.id y) (users.id u)) us u2 Hnd Hu2)
    as H2.
  rewrite H1 in H2.
  - symmetry. apply (inj Some). apply H2.
    intros y. rewrite eqb_string_true. by rewrite Hid.
  - intros y. by rewrite eqb_string_true.
Qed.

(** X14: for a user with a password row, [resetUserPassword] replaces
    the hash: afterwards the check on the user's email accepts exactly
    the passwords matching the new hash, every other user's check answers
    as before, and users, sessions (so every login of the user stays
    valid) and verification rows are untouched. *)
Theorem resetUserPassword_then_verify salt db u p newPassword :
  users_ok (db_users db) →
  passwords_ok (db_users db) (db_passwords db) →
  u ∈ db_users db → users.email u ≠ ""%string →
  p ∈ db_passwords db → passwords.userId p = users.id u →
  ∃ db',
    resetUserPassword bcrypt_hash salt db (users.id u) newPassword
      = Returned db' ∧
    db_users db' = db_users db ∧
    db_sessions db' = db_sessions db ∧
    db_verification db' = db_verification db ∧
    passwords_ok (db_users db') (db_passwords db') ∧
    (∀ password,
       verifyUserPassword bcrypt_compare db'
         (mkUserInfo (Some (users.email u)) None) password =
       if bcrypt_compare password (bcrypt_hash newPassword 10 salt)
       then Some (users.id u) else None) ∧
    (∀ email2 password,
       email2 ≠ users.email u →
       verifyUserPassword bcrypt_compare db'
         (mkUserInfo (Some email2) None) password =
       verifyUserPassword bcrypt_compare db
         (mkUserInfo (Some email2) None) password).
Proof.
  intros Hus Hps Hu Hmail Hp Hpu. eexists. split.
  { apply resetUserPassword_returns; [|done].
    apply (users_ok_id_typed (db_users db)); [done|].
    by apply list_elem_of_fmap_2. }
  simpl. do 3 (split; [done|]).
  pose proof (reset_rows_ok (bcrypt_hash newPassword 10 salt) (users.id u)
                _ _ Hps) as Hps'.
  split; [done|]. split.
  - intros password.
    pose proof (reset_rows_elem (bcrypt_hash newPassword 10 salt)
                  (users.id u) _ p Hp) as Hp'.
    rewrite (proj2 (eqb_string_true _ _) Hpu) in Hp'.
    by rewrite (verifyUserPassword_of_rows
                  (mkDb (db_users db) _ (db_sessions db) (db_verification db))
                  _ password u _ Hus Hps' Hmail Hu eq_refl Hp' Hpu).
  - intros email2 password Hother.
    destruct (decide (email2 = ""%string)) as [->|Hne2]; [done|].
    rewrite !verifyUserPassword_by_email by done. simpl.
    destruct (List.find _ (db_users db)) as [u2|] eqn:Hu2; [|done].
    apply find_some_spec in Hu2 as [Hu2 Hmail2].
    apply user_matches_email in Hmail2.
    unfold user_password. simpl.
    rewrite reset_rows_find_other; [done|].
    intros Hid. apply Hother.
    by rewrite <- Hmail2, (users_ok_same_id _ u u2 Hus Hu Hu2 Hid).
Qed.

(** X15: [resetUserPassword] for a user id whose uuid no password row
    carries changes nothing: when the store reads the id as a uuid it
    creates no password row and returns the store as it was, and when it
    does not the update statement fails and the call raises. *)
Theorem resetUserPassword_without_row salt db userId newPassword :
  passwords_ok (db_users db) (db_passwords db) →
  (∀ id p, uuid_in userId = Some id → p ∈ db_passwords db →
           passwords.userId p ≠ id) →
  resetUserPassword bcrypt_hash salt db userId newPassword =
    match uuid_in userId with
    | Some _ => Returned db
    | None => Thrown (StoreError "invalid input syntax for type uuid")
    end.
Proof.
  intros Hps Hnone. destruct (uuid_in userId) as [id|] eqn:Hin.
  - rewrite (resetUserPassword_returns _ _ _ id) by done.
    destruct db as [us ps ss vs]. simpl in *. do 2 f_equal.
    unfold reset_rows, update_where.
    rewrite <- (list_fmap_id ps) at 2. apply list_fmap_ext.
    intros i p Hp. apply list_elem_of_lookup_2 in Hp.
    assert (String.eqb (passwords.userId p) id = false) as ->
      by (apply String.eqb_neq; by apply (Hnone id)).
    done.
  - by apply resetUserPassword_malformed.
Qed.

End credentials_facts.

(** ** The step-up login, continued *)

Section login_server_more_facts.
Variable bcrypt_compare : string → string → bool.
Variable twoFAVerificationType : string.
Variable getRedirectToUrl : Request → string → string → option string → Url.
Variable safeRedirect : option string → string.
Variable StringToNumber : string → option Z.

Implicit Types (db : Db) (request : Request) (c : Client).

(** X16: when [login] succeeds for a user without a second factor and
    [handleNewSession] answers, the client's authenticated cookie binds
    the new session id and keeps every other key of the session the
    request carried, and until the row expires the client's requests
    resolve to the user. *)
Theorem direct_login_resolves now uuid current_timestamp db email password
    s db1 request redirectTo remember c t u :
  login bcrypt_compare now uuid current_timestamp db email password
    = Returned (Some s, db1) →
  find_twoFA twoFAVerificationType db1 (sessions.userId s) = None →
  t < now + SESSION_EXPIRATION_TIME →
  ∃ r,
    handleNewSession twoFAVerificationType getRedirectToUrl safeRedirect
        db1 request s redirectTo remember None = Returned r ∧
    bound_session (receive c r) = Some (JsString uuid) ∧
    (∀ key, key ≠ sessionKey →
       (client_auth (receive c r) ≫= λ a, a !! key)
         = getSession AuthCookie request !! key) ∧
    client_verify (receive c r) = client_verify c ∧
    getUserId t db1 (request_of (receive c r) u)
      = Returned (Some (sessions.userId s)).
Proof.
  intros Hlogin Hnone Hlive.
  destruct (login_success bcrypt_compare _ _ _ _ _ _ _ _ Hlogin)
    as (uid & _ & Hs & Hdb1 & Hok).
  assert (s ∈ db_sessions db1) as Hin.
  { rewrite Hdb1. simpl. apply elem_of_app. right. by left. }
  assert (sessions.id s = uuid) as Hid by by rewrite Hs.
  eexists. split; [by apply handleNewSession_direct|].
  unfold bound_session, receive, session_get. simpl. split.
  { by rewrite lookup_insert_eq, Hid. }
  split. { intros key Hkey. by rewrite lookup_insert_ne. }
  split; [done|].
  rewrite (getUserId_presented t db1 _ s Hok Hin).
  - rewrite bool_decide_eq_true_2; [done|]. by rewrite Hs.
  - unfold session_get, request_of, getSession. simpl.
    by rewrite lookup_insert_eq.
Qed.

(** X17: without a truthy pending session id, a successful submission
    makes [handleVerification] stamp the verification time and nothing
    else: the store is not read, the bound session id stays what the
    request carried, the cookie is committed without [expires], and the
    pending cookie is destroyed. *)
Theorem handleVerification_restamps now db request redirectTo c :
  truthy_opt (session_get (getSession VerifyCookie request)
                          unverifiedSessionIdKey) = false →
  ∃ r,
    handleVerification safeRedirect now db request
                       (SubmissionSuccess redirectTo) = Returned r ∧
    location r = safeRedirect redirectTo ∧
    headers r =
      [SetCookie AuthCookie
         (Some (<[verifiedTimeKey := JsNumber now]>
                  (getSession AuthCookie request))) None;
       destroySession VerifyCookie] ∧
    client_verify (receive c r) = None ∧
    (client_auth (receive c r) ≫= λ a, a !! verifiedTimeKey)
      = Some (JsNumber now) ∧
    bound_session (receive c r)
      = session_get (getSession AuthCookie request) sessionKey.
Proof.
  intros Hnone.
  assert (handleVerification safeRedirect now db request
            (SubmissionSuccess redirectTo) =
          Returned (redirect (safeRedirect redirectTo)
            [SetCookie AuthCookie
               (Some (<[verifiedTimeKey := JsNumber now]>
                        (getSession AuthCookie request))) None;
             destroySession VerifyCookie])) as ->.
  { unfold handleVerification.
    destruct (session_get _ unverifiedSessionIdKey) as [sid|]; [|done].
    simpl in Hnone. by rewrite Hnone. }
  eexists. split; [done|]. split; [done|]. split; [done|].
  unfold bound_session, receive, session_get. simpl.
  split; [done|]. split; [by rewrite lookup_insert_eq|].
  by rewrite lookup_insert_ne.
Qed.

(** X18: right after a step-up is committed, the freshness check of the
    client's next request answers by the time passed since the commit:
    not asked again for the first 120000 ms, asked from then on. *)
Theorem step_up_then_fresh now db request redirectTo s c t_query now2 u :
  users_ok (db_users db) →
  sessions_ok (db_users db) (db_sessions db) →
  s ∈ db_sessions db →
  session_get (getSession VerifyCookie request) unverifiedSessionIdKey
    = Some (JsString (sessions.id s)) →
  is_Some (find_twoFA twoFAVerificationType db (sessions.userId s)) →
  t_query < sessions.expirationDate s →
  ∃ r,
    handleVerification safeRedirect now db request
                       (SubmissionSuccess redirectTo) = Returned r ∧
    shouldRequestTwoFA twoFAVerificationType StringToNumber t_query now2 db
                       (request_of (receive c r) u)
      = Returned (bool_decide (now2 - now > 120000)).
Proof.
  intros Hus Hok Hs Hpending Htwo Hlive.
  pose proof Hok as (Hnd & _ & Hfk). rewrite Forall_forall in Hfk.
  pose proof (sessions_ok_typed _ _ s Hok Hs) as Htyped.
  eexists. split.
  { apply (handleVerification_promotes safeRedirect now db request
             redirectTo (JsString (sessions.id s)) (sessions.id s) s
             Hpending (uuid_typed_truthy _ Htyped)
             (uuid_typed_param _ Htyped)).
    apply (find_unique_key sessions.id _ _ s Hnd Hs).
    intros y. rewrite eqb_string_true. split; congruence. }
  refine (shouldRequestTwoFA_threshold twoFAVerificationType StringToNumber
            t_query now2 db _ s Hok Hs _ Hlive _ Htwo _ (Some now) _).
  - unfold session_get, request_of, receive, getSession. simpl.
    by rewrite lookup_insert_eq.
  - apply truthy_string. apply (users_ok_id_nonempty _ _ Hus (Hfk s Hs)).
  - done.
  - unfold session_get, request_of, receive, getSession. simpl.
    rewrite lookup_insert_ne by done. by rewrite lookup_insert_eq.
Qed.

(** X19: a user with an enrolled second factor and a live session whose
    cookie carries no verification stamp is asked for the second factor
    at every clock reading above 120000 ms, that is at any real time. *)
Theorem shouldRequestTwoFA_unstamped t_query now db request s :
  users_ok (db_users db) →
  sessions_ok (db_users db) (db_sessions db) →
  s ∈ db_sessions db →
  session_get (getSession AuthCookie request) sessionKey
    = Some (JsString (sessions.id s)) →
  t_query < sessions.expirationDate s →
  is_Some (find_twoFA twoFAVerificationType db (sessions.userId s)) →
  session_get (getSession VerifyCookie request) unverifiedSessionIdKey
    = None →
  session_get (getSession AuthCookie request) verifiedTimeKey = None →
  120000 < now →
  shouldRequestTwoFA twoFAVerificationType StringToNumber
                     t_query now db request = Returned true.
Proof.
  intros Hus Hok Hs Hsid Hlive Htwo Hnopending Hnostamp Hnow.
  pose proof Hok as (_ & _ & Hfk). rewrite Forall_forall in Hfk.
  rewrite (shouldRequestTwoFA_threshold twoFAVerificationType StringToNumber
             t_query now db request s Hok Hs Hsid Hlive) with (stamp := None);
    try done.
  - simpl. rewrite bool_decide_eq_true_2; [done | lia].
  - apply truthy_string. apply (users_ok_id_nonempty _ _ Hus (Hfk s Hs)).
Qed.

(** X20: a user without an enrolled second factor is never asked for
    one, whatever stamp the cookie carries. *)
Theorem shouldRequestTwoFA_not_enrolled t_query now db request s :
  sessions_ok (db_users db) (db_sessions db) →
  s ∈ db_sessions db →
  session_get (getSession AuthCookie request) sessionKey
    = Some (JsString (sessions.id s)) →
  t_query < sessions.expirationDate s →
  find_twoFA twoFAVerificationType db (sessions.userId s) = None →
  session_get (getSession VerifyCookie request) unverifiedSessionIdKey
    = None →
  shouldRequestTwoFA twoFAVerificationType StringToNumber
                     t_query now db request = Returned false.
Proof.
  intros Hok Hs Hsid Hlive Hnone Hnopending.
  unfold shouldRequestTwoFA, session_has.
  unfold session_get in Hnopending. rewrite Hnopending.
  rewrite bool_decide_eq_false_2 by (by intros [? ?]).
  rewrite (getUserId_presented t_query db request s Hok Hs Hsid).
  rewrite bool_decide_eq_true_2 by done. simpl.
  destruct (String.eqb (sessions.userId s) ""); [done|]. simpl.
  rewrite Hnone. rewrite bool_decide_eq_false_2 by (by intros [? ?]). done.
Qed.

End login_server_more_facts.

(** ** Deleting a user *)

Lemma unique_key_eq {A} (key : A → string) (l : list A) (x y : A) :
  NoDup (key <$> l) → x ∈ l → y ∈ l → key y = key x → y = x.
Proof.
  intros Hnd Hx Hy Hkey.
  pose proof (find_unique_key key (λ z, String.eqb (key z) (key x)) l x
                Hnd Hx) as H1.
  pose proof (find_unique_key key (λ z, String.eqb (key z) (key x)) l y
                Hnd Hy) as H2.
  rewrite H1 in H2.
  - symmetry. apply (inj Some). apply H2.
    intros z. rewrite eqb_string_true. by rewrite Hkey.
  - intros z. by rewrite eqb_string_true.
Qed.

Section delete_users_facts.
Variable cond : users.row → bool.
Implicit Types (st : Store).

Lemma surviving_sublist {A} (owner : A → string) gone (rows : list A) :
  surviving owner gone rows `sublist_of` rows.
Proof. apply sublist_filter. Qed.

(** An owner that survives the cascade is a user that stays. *)
Lemma surviving_owner_stays (us : list users.row) (k : string) :
  k ∈ (users.id <$> us) →
  k ∉ (users.id <$> filter (λ u, cond u = true) us) →
  k ∈ (users.id <$> filter (λ u, cond u = false) us).
Proof.
  intros (u & -> & Hu)%list_elem_of_fmap Hgone.
  apply list_elem_of_fmap_2, list_elem_of_filter. split; [|done].
  apply not_true_is_false. intros Hc. apply Hgone.
  apply list_elem_of_fmap_2, list_elem_of_filter. done.
Qed.

Lemma surviving_fk {A} (owner : A → string) (us : list users.row)
    (rows : list A) :
  Forall (λ r, owner r ∈ users.id <$> us) rows →
  Forall (λ r, owner r ∈ users.id <$> filter (λ u, cond u = false) us)
         (surviving owner
            (users.id <$> filter (λ u, cond u = true) us) rows).
Proof.
  rewrite !Forall_forall. intros Hfk r Hr.
  apply list_elem_of_filter in Hr as [Hkeep Hr].
  apply surviving_owner_stays; [by apply Hfk | done].
Qed.

(** X21: [db.delete(users)] with its cascades keeps the schema's
    constraints of all five tables: no password, session or email token
    is left referring to a deleted user. *)
Theorem delete_users_keeps_schema st :
  Store_ok st → Store_ok (delete_users cond st).
Proof.
  intros (((Hid & Huuid & Hmail) & (Hpnd & Hpfk) & (Hsnd & Hsuuid & Hsfk)
           & Hvs) & (Htnd & Htfk)).
  unfold delete_users, Store_ok, Db_ok. simpl.
  assert (∀ {B} (f : users.row → B),
            (f <$> filter (λ u, cond u = false) (db_users (store_db st)))
              `sublist_of` (f <$> db_users (store_db st))) as Hsub.
  { intros B f. apply fmap_sublist, sublist_filter. }
  repeat split.
  - eapply sublist_NoDup; [exact Hid | apply Hsub].
  - rewrite Forall_forall in *. intros x Hx. apply Huuid.
    eapply elem_of_sublist; [exact Hx | apply Hsub].
  - eapply sublist_NoDup; [exact Hmail | apply Hsub].
  - eapply sublist_NoDup; [exact Hpnd|].
    apply fmap_sublist, surviving_sublist.
  - by apply surviving_fk.
  - eapply sublist_NoDup; [exact Hsnd|].
    apply fmap_sublist, surviving_sublist.
  - rewrite Forall_forall in *. intros x Hx. apply Hsuuid.
    eapply elem_of_sublist; [exact Hx|].
    apply fmap_sublist, surviving_sublist.
  - by apply surviving_fk.
  - by destruct Hvs as (? & ? & ?).
  - by destruct Hvs as (? & ? & ?).
  - by destruct Hvs as (? & ? & ?).
  - eapply sublist_NoDup; [exact Htnd|].
    apply fmap_sublist, surviving_sublist.
  - by apply surviving_fk.
Qed.

End delete_users_facts.

Section user_delete_facts.
Variable path_and_search : string → string.
Variable login_params : string → string.

Lemma requireUserId_inv now db request redirectTo uid :
  requireUserId path_and_search login_params now db request redirectTo
    = Returned uid →
  getUserId now db request = Returned (Some uid).
Proof.
  unfold requireUserId.
  destruct (getUserId now db request) as [[uid'|]|e]; [|done..].
  simpl. destruct (String.eqb uid' ""); simpl; [done|]. by intros [= ->].
Qed.

(** The ids [delete_users] removes when asked for one id. *)
Lemma gone_by_id (us : list users.row) (uid k : string) :
  k ∈ (users.id <$> filter (λ u, String.eqb (users.id u) uid = true) us) ↔
  k = uid ∧ uid ∈ (users.id <$> us).
Proof.
  rewrite list_elem_of_fmap. split.
  - intros (u & -> & [Hid Hu]%list_elem_of_filter).
    apply eqb_string_true in Hid. split; [done|].
    rewrite <- Hid. by apply list_elem_of_fmap_2.
  - intros [-> (u & -> & Hu)%list_elem_of_fmap]. exists u. split; [done|].
    apply list_elem_of_filter. split; [by apply eqb_string_true | done].
Qed.

Lemma user_delete_action_inv now st request r st' :
  user_delete.action path_and_search login_params now st request
    = Returned (r, st') →
  ∃ uid,
    getUserId now (store_db st) request = Returned (Some uid) ∧
    r = redirect "/" [] ∧
    st' = delete_users (λ u, String.eqb (users.id u) uid) st.
Proof.
  unfold user_delete.action. intros Hact.
  destruct (requireUserId _ _ now (store_db st) request None)
    as [uid|e] eqn:Hreq; [|done].
  injection Hact as <- <-. exists uid.
  by apply requireUserId_inv in Hreq.
Qed.

Lemma surviving_by_id {A} (owner : A → string) (us : list users.row)
    (rows : list A) (uid : string) (x : A) :
  uid ∈ (users.id <$> us) →
  x ∈ surviving owner
        (users.id <$> filter (λ u, String.eqb (users.id u) uid = true) us)
        rows
  ↔ x ∈ rows ∧ owner x ≠ uid.
Proof.
  intros Hstored. unfold surviving.
  rewrite list_elem_of_filter, gone_by_id. split.
  - intros [Hn Hx]. split; [done|]. intros Heq. by apply Hn.
  - intros [Hx Hn]. split; [|done]. by intros [Heq _].
Qed.

(** X22: when the delete-account action returns, it was called with a
    live session; the user that session belongs to is gone together with
    all of the user's passwords, sessions and email tokens, the rows of
    every other user are kept, and the verification table, which the
    cascade does not reach, is as it was.  The response is a bare
    redirect to ["/"] that leaves the client's cookies alone. *)
Theorem user_delete_cascades now st request r st' :
  user_delete.action path_and_search login_params now st request
    = Returned (r, st') →
  ∃ uid,
    getUserId now (store_db st) request = Returned (Some uid) ∧
    r = redirect "/" [] ∧
    (∀ u, u ∈ db_users (store_db st') ↔
          u ∈ db_users (store_db st) ∧ users.id u ≠ uid) ∧
    (∀ p, p ∈ db_passwords (store_db st') ↔
          p ∈ db_passwords (store_db st) ∧ passwords.userId p ≠ uid) ∧
    (∀ s, s ∈ db_sessions (store_db st') ↔
          s ∈ db_sessions (store_db st) ∧ sessions.userId s ≠ uid) ∧
    (∀ t, t ∈ store_emailTokens st' ↔
          t ∈ store_emailTokens st ∧ emailTokens.userId t ≠ uid) ∧
    db_verification (store_db st') = db_verification (store_db st).
Proof.
  intros (uid & Hreq & -> & ->)%user_delete_action_inv. exists uid.
  pose proof (getUserId_only_live_rows now (store_db st) request uid Hreq)
    as Hstored.
  split; [done|]. split; [done|]. simpl. split.
  { intros u. rewrite list_elem_of_filter, <- not_true_iff_false,
      eqb_string_true. split; intros [? ?]; done. }
  split; [intros p; by apply surviving_by_id|].
  split; [intros s; by apply surviving_by_id|].
  split; [intros t; by apply surviving_by_id | done].
Qed.

(** X23: after the delete-account action no session of the deleted
    user resolves any more: a request presenting the id of any of the
    user's session rows, from this client or another, gets the revoking
    redirect at any time. *)
Theorem user_delete_kills_sessions now st request r st' s request2 now2 :
  sessions_ok (db_users (store_db st)) (db_sessions (store_db st)) →
  user_delete.action path_and_search login_params now st request
    = Returned (r, st') →
  getUserId now (store_db st) request
    = Returned (Some (sessions.userId s)) →
  s ∈ db_sessions (store_db st) →
  session_get (getSession AuthCookie request2) sessionKey
    = Some (JsString (sessions.id s)) →
  getUserId now2 (store_db st') request2
    = Thrown (ThrowRedirect (redirect "/" [destroySession AuthCookie])).
Proof.
  intros Hok (uid & Hreq & -> & ->)%user_delete_action_inv Howner Hs Hsid.
  pose proof (sessions_ok_typed _ _ s Hok Hs) as Htyped.
  destruct Hok as (Hnd & _ & _).
  rewrite Hreq in Howner. injection Howner as ->.
  pose proof (getUserId_only_live_rows now (store_db st) request _ Hreq)
    as Hstored.
  apply (getUserId_dead now2 _ request2 _ (sessions.id s) Hsid
           (uuid_typed_truthy _ Htyped) (uuid_typed_param _ Htyped)).
  intros s' Hs' Hid. exfalso. simpl in Hs'.
  { 
    apply surviving_by_id in Hs' as [Hs' Hother]; [|done].
    apply Hother.
    by rewrite (unique_key_eq sessions.id _ s s' Hnd Hs Hs' Hid). }
Qed.

End user_delete_facts.

(** ** The password reset and onboarding routes *)

(** A guard that lets an anonymous request pass when the pending cookie
    holds a non-empty string under [key], and sends every other request
    away. *)
Lemma email_guard_iff now db request (key away : string) (e : string) :
  users_ok (db_users db) →
  (_ ← requireAnonymous now db request;
   match session_get (getSession VerifyCookie request) key with
   | Some (JsString email) =>
     if truthy (JsString email) then Returned email
     else Thrown (ThrowRedirect (redirect away []))
   | _ => Thrown (ThrowRedirect (redirect away []))
   end) = Returned e ↔
  truthy_opt (session_get (getSession AuthCookie request) sessionKey) = false ∧
  session_get (getSession VerifyCookie request) key = Some (JsString e) ∧
  e ≠ ""%string.
Proof.
  intros Hok.
  destruct (truthy_opt (session_get (getSession AuthCookie request)
                                    sessionKey)) eqn:Hauth.
  - destruct (requireAnonymous_throws now db request Hok Hauth)
      as (e' & -> & _).
    split; [done | by intros [? _]].
  - rewrite (requireAnonymous_passes now db request Hauth). simpl.
    destruct (session_get _ key) as [[email| | |]|];
      try (split; [done | by intros (_ & ? & _)]).
    destruct (String.eqb email "") eqn:Hne; simpl.
    + apply eqb_string_true in Hne. subst email.
      split; [done|]. by intros (_ & [= <-] & ?).
    + apply String.eqb_neq in Hne. split.
      * by intros [= ->].
      * by intros (_ & [= ->] & _).
Qed.

Lemma requireResetPasswordEmail_guard now db request e :
  users_ok (db_users db) →
  reset_password.requireResetPasswordEmail now db request = Returned e →
  truthy_opt (session_get (getSession AuthCookie request) sessionKey) = false ∧
  session_get (getSession VerifyCookie request)
              reset_password.resetPasswordEmailSessionKey
    = Some (JsString e) ∧
  e ≠ ""%string.
Proof.
  intros Hok.
  apply (email_guard_iff now db request
           reset_password.resetPasswordEmailSessionKey "/accounts/login" e Hok).
Qed.

(** X24: [requireResetPasswordEmail] returns an email exactly when the
    request is anonymous and its pending cookie holds that email, a
    non-empty string, under [resetPasswordEmail]. *)
Theorem requireResetPasswordEmail_iff now db request e :
  users_ok (db_users db) →
  reset_password.requireResetPasswordEmail now db request = Returned e ↔
  truthy_opt (session_get (getSession AuthCookie request) sessionKey) = false ∧
  session_get (getSession VerifyCookie request)
              reset_password.resetPasswordEmailSessionKey
    = Some (JsString e) ∧
  e ≠ ""%string.
Proof.
  intros Hok.
  apply (email_guard_iff now db request
           reset_password.resetPasswordEmailSessionKey "/accounts/login" e Hok).
Qed.

(** X25: [requireOnboardingEmail] returns an email exactly when the
    request is anonymous and its pending cookie holds that email, a
    non-empty string, under [onboardingEmail]; a logged-in user never
    reaches the onboarding form. *)
Theorem requireOnboardingEmail_iff now db request e :
  users_ok (db_users db) →
  onboarding.requireOnboardingEmail now db request = Returned e ↔
  truthy_opt (session_get (getSession AuthCookie request) sessionKey) = false ∧
  session_get (getSession VerifyCookie request)
              onboarding.onboardingEmailSessionKey
    = Some (JsString e) ∧
  e ≠ ""%string.
Proof.
  intros Hok.
  apply (email_guard_iff now db request
           onboarding.onboardingEmailSessionKey "/accounts/signup" e Hok).
Qed.

Section reset_password_facts.
Variable bcrypt_compare : string → string → bool.
Variable bcrypt_hash : string → Z → string → string.

(** The action once its guard has let the request pass. *)
Lemma reset_action_guarded salt now db request submission e :
  reset_password.requireResetPasswordEmail now db request = Returned e →
  reset_password.action bcrypt_hash salt now db request submission =
    match submission with
    | PasswordError => RouteReturned (RouteData 400, db)
    | PasswordUnsubmitted => RouteReturned (RouteData 200, db)
    | PasswordSuccess password =>
      match List.find (λ u, String.eqb (users.email u) e) (db_users db) with
      | None => RouteJsError "Something went wrong"
      | Some user =>
        db' ← lift_outcome
                (resetUserPassword bcrypt_hash salt db (users.id user)
                                   password);
        RouteReturned
          (RouteRedirect
             (redirect "/accounts/login" [destroySession VerifyCookie]),
           db')
      end
    end.
Proof. intros Hguard. unfold reset_password.action. by rewrite Hguard. Qed.

(** X26: the reset action changes a password only for an anonymous
    request whose pending cookie names the email, and then only the
    password row of the user with that email: users, sessions,
    verification rows and every other user's password row are handed
    back as they were. *)
Theorem reset_action_scope salt now db request submission result db' :
  users_ok (db_users db) →
  reset_password.action bcrypt_hash salt now db request submission
    = RouteReturned (result, db') →
  ∃ e,
    truthy_opt (session_get (getSession AuthCookie request) sessionKey)
      = false ∧
    session_get (getSession VerifyCookie request)
                reset_password.resetPasswordEmailSessionKey
      = Some (JsString e) ∧
    e ≠ ""%string ∧
    db_users db' = db_users db ∧
    db_sessions db' = db_sessions db ∧
    db_verification db' = db_verification db ∧
    ∀ p, p ∈ db_passwords db →
         (∀ u, u ∈ db_users db → users.email u = e →
               passwords.userId p ≠ users.id u) →
         p ∈ db_passwords db'.
Proof.
  intros Hus Hact.
  destruct (reset_password.requireResetPasswordEmail now db request)
    as [e|ex] eqn:Hguard.
  2:{ unfold reset_password.action in Hact. by rewrite Hguard in Hact. }
  rewrite (reset_action_guarded salt now db request submission e Hguard)
    in Hact.
  apply (requireResetPasswordEmail_guard now db request e Hus) in Hguard
    as (Hanon & Hkey & Hne).
  exists e. do 3 (split; [done|]).
  destruct submission as [password| |];
    [|by injection Hact as <- <-..].
  destruct (List.find _ (db_users db)) as [user|] eqn:Huser; [|done].
  apply find_some_spec in Huser as [Huser Hmail].
  apply eqb_string_true in Hmail.
  pose proof (users_ok_id_typed _ _ Hus
                (list_elem_of_fmap_2 users.id _ _ Huser)) as Htyped.
  unfold resetUserPassword, update_passwords in Hact.
  rewrite (uuid_typed_param _ Htyped) in Hact. simpl in Hact.
  case_decide; [|done]. simpl in Hact. injection Hact as <- <-.
  simpl. do 3 (split; [done|]). intros p Hp Hother.
  pose proof (reset_rows_elem
                (getPasswordHash bcrypt_hash salt password)
                (users.id user) _ p Hp) as Hp'.
  assert (String.eqb (passwords.userId p) (users.id user) = false) as Hneq.
  { apply String.eqb_neq. by apply Hother. }
  by rewrite Hneq in Hp'.
Qed.

(** X27: after the reset action has succeeded for a user with a password
    row, a [login] with the email of the pending cookie, the new
    password, if the new password matches its own hash, and a fresh uuid
    returns a session of that user; the action's response redirects to
    the login page and destroys the pending cookie. *)
Theorem reset_action_then_login salt now db request password e u p
    now2 uuid2 timestamp2 :
  Db_ok db →
  reset_password.requireResetPasswordEmail now db request = Returned e →
  u ∈ db_users db → users.email u = e →
  p ∈ db_passwords db → passwords.userId p = users.id u →
  bcrypt_compare password (bcrypt_hash password 10 salt) = true →
  uuid_typed uuid2 →
  uuid2 ∉ (sessions.id <$> db_sessions db) →
  ∃ db' s2 db2,
    reset_password.action bcrypt_hash salt now db request
                          (PasswordSuccess password)
      = RouteReturned
          (RouteRedirect
             (redirect "/accounts/login" [destroySession VerifyCookie]),
           db') ∧
    login bcrypt_compare now2 uuid2 timestamp2 db' e password
      = Returned (Some s2, db2) ∧
    sessions.userId s2 = users.id u ∧
    sessions.id s2 = uuid2.
Proof.
  intros (Hus & Hps & Hss & _) Hguard Hu Hmail Hp Hpu Hcmp Hne Hfresh.
  pose proof (requireResetPasswordEmail_guard now db request e Hus Hguard)
    as (_ & _ & Hnonempty).
  rewrite (reset_action_guarded salt now db request _ e Hguard).
  pose proof (users_ok_id_typed _ _ Hus
                (list_elem_of_fmap_2 users.id _ _ Hu)) as [_ Htyped].
  destruct Hus as (Hid & Huuid & Hemails).
  rewrite (find_unique_key users.email _ _ u Hemails Hu).
  2:{ intros y. rewrite eqb_string_true. by rewrite Hmail. }
  rewrite (resetUserPassword_returns _ _ _ _ (users.id u)) by done. simpl.
  eexists _. 
  pose proof (reset_rows_ok (bcrypt_hash password 10 salt) (users.id u)
                _ _ Hps) as Hps'.
  pose proof (reset_rows_elem (bcrypt_hash password 10 salt)
                (users.id u) _ p Hp) as Hp'.
  rewrite (proj2 (eqb_string_true _ _) Hpu) in Hp'.
  unfold login.
  rewrite (verifyUserPassword_of_rows bcrypt_compare
             (mkDb (db_users db) _ (db_sessions db) (db_verification db))
             e password u _ (conj Hid (conj Huuid Hemails)) Hps' Hnonempty
             Hu Hmail Hp' Hpu).
  simpl. rewrite Hcmp. unfold insert_session. simpl.
  rewrite decide_True.
  - simpl. eexists _, _. done.
  - apply sessions_ok_snoc; try done. simpl.
    by apply (list_elem_of_fmap_2 users.id _ u).
Qed.

(** X28: when the pending cookie names an email that no user has, the
    reset action fails with the error ["Something went wrong"] and hands
    back no store. *)
Theorem reset_action_unknown_email salt now db request password e :
  reset_password.requireResetPasswordEmail now db request = Returned e →
  (∀ u, u ∈ db_users db → users.email u ≠ e) →
  reset_password.action bcrypt_hash salt now db request
                        (PasswordSuccess password)
    = RouteJsError "Something went wrong".
Proof.
  intros Hguard Hnone.
  rewrite (reset_action_guarded salt now db request _ e Hguard).
  replace (List.find _ (db_users db)) with (@None users.row); [done|].
  symmetry. apply find_none_iff. intros u Hu.
  apply not_true_is_false. rewrite eqb_string_true. by apply Hnone.
Qed.

End reset_password_facts.

End properties.

(** * The properties on the sample store *)

#[local] Existing Instance sample.uuid_text.


(** C1: ten minutes after a step-up, for a user with an enrolled second
    factor, a live session and no pending step-up, [shouldRequestTwoFA]
    already answers [true], although far less than two hours have passed:
    the value compared against is [1000 * 60 * 2] ms, two minutes. *)
Theorem shouldRequestTwoFA_stale_after_ten_minutes :
  shouldRequestTwoFA "2fa" sample.StringToNumber
      (sample.t0 + 600000) (sample.t0 + 600000)
      sample.db_ann sample.ann_stamped = Returned true ∧
  (sample.t0 + 600000) - sample.t0 ≤ 2 * 60 * 60 * 1000 ∧
  session_get (getSession AuthCookie sample.ann_stamped) verifiedTimeKey
    = Some (JsNumber sample.t0).
Proof. split; [|split]; compute_done. Qed.

Lemma step_up_promotes_candidate_witness :
  login sample.bcrypt_compare sample.t0
        (sessions.id sample.ann_session) sample.t0 sample.db0
        "ann@example.org" "correct horse"
    = Returned (Some sample.ann_session, sample.db_ann) ∧
  ∃ r1 r2,
    handleNewSession "2fa" sample.getRedirectToUrl sample.safeRedirect
        sample.db_ann sample.anonymous sample.ann_session None true None
      = Returned r1 ∧
    handleVerification sample.safeRedirect (sample.t0 + 30000) sample.db_ann
        (request_of (receive (mkClient None None) r1) "/accounts/verify")
        (SubmissionSuccess None) = Returned r2 ∧
    bound_session (receive (receive (mkClient None None) r1) r2)
      = Some (JsString (sessions.id sample.ann_session)).
Proof.
  split; [compute_done|].
  destruct (step_up_promotes_candidate sample.bcrypt_compare "2fa"
              sample.getRedirectToUrl sample.safeRedirect
              sample.t0 (sessions.id sample.ann_session) sample.t0
              sample.db0 "ann@example.org" "correct horse"
              sample.ann_session sample.db_ann sample.anonymous None true
              (mkClient None None) (sample.t0 + 30000) sample.db_ann
              "/accounts/verify" None)
    as (r1 & r2 & _ & _ & H1 & _ & _ & H2 & H3); [compute_done ..|].
  exists r1, r2. split; [exact H1|]. split; [exact H2 | exact H3].
Defined.

Lemma handleNewSession_pending_only_witness :
  is_Some (find_twoFA "2fa" sample.db_ann
                      (sessions.userId sample.ann_session)) ∧
  ∃ r,
    handleNewSession "2fa" sample.getRedirectToUrl sample.safeRedirect
        sample.db_ann sample.anonymous sample.ann_session None true None
      = Returned r ∧
    headers r =
      [SetCookie VerifyCookie
                 (Some (pending_session sample.ann_session true)) None] ∧
    client_auth (receive (mkClient None None) r) = None.
Proof.
  split; [compute_done|].
  destruct (handleNewSession_pending_only "2fa" sample.getRedirectToUrl
              sample.safeRedirect sample.db_ann sample.anonymous
              sample.ann_session None true None)
    as (r & Hr & Hh & _ & _ & _ & Hframe); [compute_done|].
  exists r. split; [exact Hr|]. split; [exact Hh|].
  apply (Hframe (Forall_nil_2 _) (mkClient None None)).
Defined.

Lemma getUserId_live_iff_witness :
  (getUserId (sample.t0 + 1000) sample.db_ann sample.ann_stamped
     = Returned (Some (sessions.userId sample.ann_session))
   ↔ sample.t0 + 1000 < sessions.expirationDate sample.ann_session) ∧
  (sessions.expirationDate sample.ann_session ≤ sample.t0 + 1000 →
   getUserId (sample.t0 + 1000) sample.db_ann sample.ann_stamped
     = Thrown (ThrowRedirect (redirect "/" [destroySession AuthCookie]))).
Proof.
  apply (getUserId_live_iff (sample.t0 + 1000) sample.db_ann
           sample.ann_stamped sample.ann_session); compute_done.
Defined.

Lemma verifyUserPassword_failure_uniform_witness :
  verifyUserPassword sample.bcrypt_compare sample.db0
      (mkUserInfo (Some "ann@example.org"%string) None) "battery staple"
    = None.
Proof.
  apply (verifyUserPassword_failure_uniform sample.bcrypt_compare sample.db0
           "ann@example.org" "battery staple"); [compute_done ..|].
  apply (WrongPassword _ _ _ _ sample.ann sample.ann_password); compute_done.
Defined.



(** C9: [logout] raises on a request whose cookie holds a session id
    that the store does not read as a uuid, although no session row has
    that id: the delete statement fails, its error leaves [logout], and
    neither the redirect nor the header that destroys the cookie is
    produced. *)
Theorem logout_raises_on_malformed_token :
  session_get (getSession AuthCookie sample.malformed_session) sessionKey
    = Some (JsString "not-a-uuid") ∧
  ("not-a-uuid"%string ∉ (sessions.id <$> db_sessions sample.db_ann)) ∧
  logout sample.safeRedirect sample.db_ann sample.malformed_session None None
    = Thrown (StoreError "invalid input syntax for type uuid").
Proof. split; [|split]; compute_done. Qed.

Lemma login_failure_store_unchanged_witness :
  login sample.bcrypt_compare sample.t0
        "018bcfe5-6800-7000-8000-0000000000a2" sample.t0 sample.db_ann
        "ann@example.org" "battery staple"
    = Returned (None, sample.db_ann).
Proof.
  apply (login_failure_store_unchanged sample.bcrypt_compare sample.t0
           "018bcfe5-6800-7000-8000-0000000000a2" sample.t0 sample.db_ann
           "ann@example.org" "battery staple").
  compute_done.
Defined.

(** ** The further properties on the sample store *)

Lemma getUserId_only_live_sessions_witness :
  ∃ s text,
       s ∈ db_sessions sample.db_ann ∧
       session_get (getSession AuthCookie sample_routes.ann_request)
                   sessionKey = Some (JsString text) ∧
       text ≠ ""%string ∧
       uuid_in text = Some (sessions.id s) ∧
       sample.t0 + 1000 < sessions.expirationDate s ∧
       sessions.userId s = users.id sample.ann ∧
       users.id sample.ann ∈ (users.id <$> db_users sample.db_ann).
Proof.
  apply (getUserId_only_live_sessions (sample.t0 + 1000) sample.db_ann
           sample_routes.ann_request (users.id sample.ann)).
  compute_done.
Defined.

Lemma getUserId_dead_session_revokes_witness :
  getUserId (sample.t0 + 2592000000) sample.db_ann sample_routes.ann_request
    = Thrown (ThrowRedirect (redirect "/" [destroySession AuthCookie])).
Proof.
  destruct (getUserId_dead_session_revokes (sample.t0 + 2592000000)
              sample.db_ann sample_routes.ann_request
              (JsString (sessions.id sample.ann_session))) as [H _];
    [compute_done | compute_done | | exact H].
  intros id s Hid. vm_compute in Hid. injection Hid as <-.
  revert s. every_row.
Defined.

Lemma requireAnonymous_iff_witness :
  requireAnonymous sample.t0 sample.db_ann sample.anonymous = Returned tt.
Proof.
  destruct (requireAnonymous_iff sample.t0 sample.db_ann sample.anonymous)
    as [[_ H] _]; [compute_done|].
  apply H. compute_done.
Defined.

Lemma requireUserId_live_witness :
  requireUserId sample_routes.path_and_search sample_routes.login_params
      (sample.t0 + 1000) sample.db_ann sample_routes.ann_request None
    = Returned (sessions.userId sample.ann_session).
Proof.
  apply (requireUserId_live sample_routes.path_and_search
           sample_routes.login_params (sample.t0 + 1000) sample.db_ann
           sample_routes.ann_request None sample.ann_session);
    compute_done.
Defined.

Lemma requireUserId_anonymous_witness :
  requireUserId sample_routes.path_and_search sample_routes.login_params
      sample.t0 sample.db_ann (mkRequest "/settings?tab=email" None None)
      None
    = Thrown (ThrowRedirect
                (redirect "/accounts/login?redirectTo=/settings?tab=email"
                          [])).
Proof.
  etrans.
  - apply (requireUserId_anonymous sample_routes.path_and_search
             sample_routes.login_params sample.t0 sample.db_ann
             (mkRequest "/settings?tab=email" None None) None).
    compute_done.
  - compute_done.
Defined.

Lemma verifyUserPassword_some_iff_witness :
  verifyUserPassword sample.bcrypt_compare sample.db0
      (mkUserInfo (Some "ann@example.org"%string) None) "correct horse"
    = Some (users.id sample.ann) ↔
  ∃ u p, u ∈ db_users sample.db0 ∧ users.email u = "ann@example.org"%string ∧
         users.id u = users.id sample.ann ∧
         p ∈ db_passwords sample.db0 ∧
         passwords.userId p = users.id sample.ann ∧
         sample.bcrypt_compare "correct horse" (passwords.hash p) = true.
Proof.
  apply (verifyUserPassword_some_iff sample.bcrypt_compare sample.db0
           "ann@example.org" "correct horse" (users.id sample.ann));
    compute_done.
Defined.

Lemma login_keeps_schema_witness : Db_ok sample.db_ann.
Proof.
  destruct (login_keeps_schema sample.bcrypt_compare sample.t0
              (sessions.id sample.ann_session) sample.t0 sample.db0
              "ann@example.org" "correct horse" (Some sample.ann_session)
              sample.db_ann) as [H _]; [compute_done.. | exact H].
Defined.

Lemma login_uuid_collision_witness :
  login sample.bcrypt_compare (sample.t0 + 5000)
        (sessions.id sample.ann_session) (sample.t0 + 5000) sample.db_ann
        "ann@example.org" "correct horse"
    = Thrown (StoreError "sessions").
Proof.
  apply (login_uuid_collision sample.bcrypt_compare (sample.t0 + 5000)
           (sessions.id sample.ann_session) (sample.t0 + 5000) sample.db_ann
           "ann@example.org" "correct horse" (users.id sample.ann));
    compute_done.
Defined.

Lemma signup_keeps_schema_witness : Db_ok sample_routes.db_dave.
Proof.
  destruct (signup_keeps_schema sample_routes.bcrypt_hash
              sample_routes.toLowerCase sample.t0
              (users.id sample_routes.dave)
              (sessions.id sample_routes.dave_session) "salt" sample.t0
              sample.db0 "Dave@Example.org" "Dave" "tr0ub4dor"
              sample_routes.dave_session sample_routes.db_dave)
    as [H _]; [compute_done.. | exact H].
Defined.

Lemma signup_email_taken_witness :
  signup sample_routes.bcrypt_hash sample_routes.toLowerCase sample.t0
         (users.id sample_routes.dave)
         (sessions.id sample_routes.dave_session) "salt" sample.t0
         sample.db0 "ANN@example.org" "Ann" "tr0ub4dor"
    = Thrown (StoreError "users").
Proof.
  apply (signup_email_taken sample_routes.bcrypt_hash
           sample_routes.toLowerCase sample.t0
           (users.id sample_routes.dave)
           (sessions.id sample_routes.dave_session) "salt" sample.t0
           sample.db0 "ANN@example.org" "Ann" "tr0ub4dor").
  compute_done.
Defined.

Lemma signup_then_login_witness :
  ∃ s2 db2,
    login sample.bcrypt_compare (sample.t0 + 86400000)
          "018bcfe5-6800-7000-8000-0000000000d2" (sample.t0 + 86400000)
          sample_routes.db_dave
          (sample_routes.toLowerCase "Dave@Example.org") "tr0ub4dor"
      = Returned (Some s2, db2) ∧
    sessions.userId s2 = sessions.userId sample_routes.dave_session ∧
    sessions.id s2 = "018bcfe5-6800-7000-8000-0000000000d2"%string.
Proof.
  destruct (signup_then_login sample.bcrypt_compare
              sample_routes.bcrypt_hash sample_routes.toLowerCase sample.t0
              (users.id sample_routes.dave)
              (sessions.id sample_routes.dave_session) "salt" sample.t0
              sample.db0 "Dave@Example.org" "Dave" "tr0ub4dor"
              sample_routes.dave_session sample_routes.db_dave
              (sample.t0 + 86400000)
              "018bcfe5-6800-7000-8000-0000000000d2"
              (sample.t0 + 86400000))
    as [_ H]; [compute_done.. | exact H].
Defined.

Lemma logout_removes_only_presented_witness :
  Db_ok sample.db_bob ∧
  ∀ s, s ∈ db_sessions sample.db_bob ↔
       s ∈ db_sessions sample_routes.db_both ∧
       ∀ v, session_get (getSession AuthCookie sample_routes.ann_request)
                        sessionKey = Some v →
            truthy v = true →
            uuid_param v ≠ Returned (sessions.id s).
Proof.
  destruct (logout_removes_only_presented sample.safeRedirect
              sample_routes.db_both sample_routes.ann_request None None
              (redirect "/" [destroySession AuthCookie]) sample.db_bob)
    as (H1 & _ & _ & _ & H2 & _); [compute_done.. |].
  split; [exact H1 | exact H2].
Defined.

Lemma logout_then_replay_witness :
  getUserId (sample.t0 + 1000) sample.db_bob sample_routes.ann_request
    = Thrown (ThrowRedirect (redirect "/" [destroySession AuthCookie])).
Proof.
  destruct (logout_then_replay sample.safeRedirect sample_routes.db_both
              sample_routes.ann_request None None
              (JsString (sessions.id sample.ann_session))
              (redirect "/" [destroySession AuthCookie]) sample.db_bob)
    as [H _]; [compute_done.. | exact (H (sample.t0 + 1000))].
Defined.

Lemma resetUserPassword_then_verify_witness :
  ∃ db',
    resetUserPassword sample_routes.bcrypt_hash "salt" sample.db0
                      (users.id sample.ann) "new secret" = Returned db' ∧
    db_sessions db' = db_sessions sample.db0 ∧
    ∀ password,
      verifyUserPassword sample.bcrypt_compare db'
        (mkUserInfo (Some (users.email sample.ann)) None) password =
      if sample.bcrypt_compare password
           (sample_routes.bcrypt_hash "new secret" 10 "salt")
      then Some (users.id sample.ann) else None.
Proof.
  destruct (resetUserPassword_then_verify sample.bcrypt_compare
              sample_routes.bcrypt_hash "salt" sample.db0 sample.ann
              sample.ann_password "new secret")
    as (db' & H1 & _ & H2 & _ & _ & H3 & _); [compute_done.. |].
  exists db'. split; [exact H1|]. split; [exact H2 | exact H3].
Defined.

Lemma resetUserPassword_without_row_witness :
  resetUserPassword sample_routes.bcrypt_hash "salt" sample_routes.db_carol
                    (users.id sample_routes.carol) "new secret"
    = Returned sample_routes.db_carol.
Proof.
  refine (resetUserPassword_without_row sample_routes.bcrypt_hash "salt"
            sample_routes.db_carol (users.id sample_routes.carol)
            "new secret" _ _); [compute_done|].
  intros id p Hid. vm_compute in Hid. injection Hid as <-.
  revert p. every_row.
Defined.

Lemma direct_login_resolves_witness :
  ∃ r,
    handleNewSession "2fa" sample.getRedirectToUrl sample.safeRedirect
        sample.db_bob sample.anonymous sample.bob_session None false None
      = Returned r ∧
    getUserId (sample.t0 + 86400000) sample.db_bob
              (request_of (receive (mkClient None None) r) "/settings")
      = Returned (Some (sessions.userId sample.bob_session)).
Proof.
  destruct (direct_login_resolves sample.bcrypt_compare "2fa"
              sample.getRedirectToUrl sample.safeRedirect sample.t0
              (sessions.id sample.bob_session) sample.t0 sample.db0
              "bob@example.org" "battery staple" sample.bob_session
              sample.db_bob sample.anonymous None false
              (mkClient None None) (sample.t0 + 86400000) "/settings")
    as (r & H1 & _ & _ & _ & H2); [compute_done.. |].
  exists r. split; [exact H1 | exact H2].
Defined.

Lemma handleVerification_restamps_witness :
  ∃ r,
    handleVerification sample.safeRedirect (sample.t0 + 7200000)
        sample.db_ann sample.ann_stamped (SubmissionSuccess None)
      = Returned r ∧
    (client_auth (receive (mkClient None None) r) ≫= λ a, a !! verifiedTimeKey)
      = Some (JsNumber (sample.t0 + 7200000)) ∧
    bound_session (receive (mkClient None None) r)
      = session_get (getSession AuthCookie sample.ann_stamped) sessionKey.
Proof.
  destruct (handleVerification_restamps sample.safeRedirect
              (sample.t0 + 7200000) sample.db_ann sample.ann_stamped None
              (mkClient None None))
    as (r & H1 & _ & _ & _ & H2 & H3); [compute_done|].
  exists r. split; [exact H1|]. split; [exact H2 | exact H3].
Defined.

Lemma step_up_then_fresh_witness :
  ∃ r,
    handleVerification sample.safeRedirect (sample.t0 + 30000) sample.db_ann
        sample_routes.ann_pending (SubmissionSuccess None) = Returned r ∧
    shouldRequestTwoFA "2fa" sample.StringToNumber
        (sample.t0 + 60000) (sample.t0 + 60000) sample.db_ann
        (request_of (receive (mkClient None None) r) "/settings")
      = Returned
          (bool_decide
             (sample.t0 + 60000 - (sample.t0 + 30000) > 120000)).
Proof.
  apply (step_up_then_fresh "2fa" sample.safeRedirect sample.StringToNumber
           (sample.t0 + 30000) sample.db_ann sample_routes.ann_pending None
           sample.ann_session (mkClient None None) (sample.t0 + 60000)
           (sample.t0 + 60000) "/settings"); compute_done.
Defined.

Lemma shouldRequestTwoFA_unstamped_witness :
  shouldRequestTwoFA "2fa" sample.StringToNumber
      (sample.t0 + 1000) (sample.t0 + 1000) sample.db_ann
      sample_routes.ann_request = Returned true.
Proof.
  apply (shouldRequestTwoFA_unstamped "2fa" sample.StringToNumber
           (sample.t0 + 1000) (sample.t0 + 1000) sample.db_ann
           sample_routes.ann_request sample.ann_session); compute_done.
Defined.

Lemma shouldRequestTwoFA_not_enrolled_witness :
  shouldRequestTwoFA "2fa" sample.StringToNumber
      (sample.t0 + 1000) (sample.t0 + 1000) sample.db_bob
      sample_routes.bob_request = Returned false.
Proof.
  apply (shouldRequestTwoFA_not_enrolled "2fa" sample.StringToNumber
           (sample.t0 + 1000) (sample.t0 + 1000) sample.db_bob
           sample_routes.bob_request sample.bob_session); compute_done.
Defined.

Lemma delete_users_keeps_schema_witness :
  Store_ok
    (delete_users (λ u, String.eqb (users.id u) (users.id sample.ann))
                  sample_routes.store_both).
Proof.
  apply (delete_users_keeps_schema
           (λ u, String.eqb (users.id u) (users.id sample.ann))
           sample_routes.store_both).
  compute_done.
Defined.

Lemma user_delete_cascades_witness :
  ∃ uid,
    getUserId (sample.t0 + 1000) sample_routes.db_both
              sample_routes.ann_request = Returned (Some uid) ∧
    (∀ s, s ∈ db_sessions (store_db sample_routes.store_without_ann) ↔
          s ∈ db_sessions sample_routes.db_both ∧ sessions.userId s ≠ uid) ∧
    db_verification (store_db sample_routes.store_without_ann)
      = db_verification sample_routes.db_both.
Proof.
  destruct (user_delete_cascades sample_routes.path_and_search
              sample_routes.login_params (sample.t0 + 1000)
              sample_routes.store_both sample_routes.ann_request
              (redirect "/" []) sample_routes.store_without_ann)
    as (uid & H1 & _ & _ & _ & H2 & _ & H3); [compute_done|].
  exists uid. split; [exact H1|]. split; [exact H2 | exact H3].
Defined.

Lemma user_delete_kills_sessions_witness :
  getUserId (sample.t0 + 2000)
            (store_db sample_routes.store_without_ann)
            sample_routes.ann_request
    = Thrown (ThrowRedirect (redirect "/" [destroySession AuthCookie])).
Proof.
  apply (user_delete_kills_sessions sample_routes.path_and_search
           sample_routes.login_params (sample.t0 + 1000)
           sample_routes.store_both sample_routes.ann_request
           (redirect "/" []) sample_routes.store_without_ann
           sample.ann_session sample_routes.ann_request (sample.t0 + 2000));
    compute_done.
Defined.

Lemma requireResetPasswordEmail_iff_witness :
  reset_password.requireResetPasswordEmail sample.t0 sample.db0
      sample_routes.reset_request = Returned "ann@example.org"%string ↔
  truthy_opt (session_get (getSession AuthCookie sample_routes.reset_request)
                          sessionKey) = false ∧
  session_get (getSession VerifyCookie sample_routes.reset_request)
              reset_password.resetPasswordEmailSessionKey
    = Some (JsString "ann@example.org") ∧
  "ann@example.org"%string ≠ ""%string.
Proof.
  apply (requireResetPasswordEmail_iff sample.t0 sample.db0
           sample_routes.reset_request "ann@example.org").
  compute_done.
Defined.

Lemma requireOnboardingEmail_iff_witness :
  onboarding.requireOnboardingEmail sample.t0 sample.db0
      sample_routes.onboarding_request = Returned "dave@example.org"%string ↔
  truthy_opt
    (session_get (getSession AuthCookie sample_routes.onboarding_request)
                 sessionKey) = false ∧
  session_get (getSession VerifyCookie sample_routes.onboarding_request)
              onboarding.onboardingEmailSessionKey
    = Some (JsString "dave@example.org") ∧
  "dave@example.org"%string ≠ ""%string.
Proof.
  apply (requireOnboardingEmail_iff sample.t0 sample.db0
           sample_routes.onboarding_request "dave@example.org").
  compute_done.
Defined.

Lemma reset_action_scope_witness :
  ∃ e,
    session_get (getSession VerifyCookie sample_routes.reset_request)
                reset_password.resetPasswordEmailSessionKey
      = Some (JsString e) ∧
    db_users sample_routes.db_reset = db_users sample.db0 ∧
    db_sessions sample_routes.db_reset = db_sessions sample.db0.
Proof.
  destruct (reset_action_scope sample_routes.bcrypt_hash "salt" sample.t0
              sample.db0 sample_routes.reset_request
              (PasswordSuccess "new secret")
              (RouteRedirect
                 (redirect "/accounts/login" [destroySession VerifyCookie]))
              sample_routes.db_reset)
    as (e & _ & H1 & _ & H2 & H3 & _); [compute_done.. |].
  exists e. split; [exact H1|]. split; [exact H2 | exact H3].
Defined.

Lemma reset_action_then_login_witness :
  ∃ db' s2 db2,
    reset_password.action sample_routes.bcrypt_hash "salt" sample.t0
        sample.db0 sample_routes.reset_request (PasswordSuccess "new secret")
      = RouteReturned
          (RouteRedirect
             (redirect "/accounts/login" [destroySession VerifyCookie]),
           db') ∧
    login sample.bcrypt_compare (sample.t0 + 60000)
          (sessions.id sample.ann_session) (sample.t0 + 60000) db'
          "ann@example.org" "new secret" = Returned (Some s2, db2) ∧
    sessions.userId s2 = users.id sample.ann ∧
    sessions.id s2 = sessions.id sample.ann_session.
Proof.
  apply (reset_action_then_login sample.bcrypt_compare
           sample_routes.bcrypt_hash "salt" sample.t0 sample.db0
           sample_routes.reset_request "new secret" "ann@example.org"
           sample.ann sample.ann_password (sample.t0 + 60000)
           (sessions.id sample.ann_session) (sample.t0 + 60000));
    compute_done.
Defined.

Lemma reset_action_unknown_email_witness :
  reset_password.action sample_routes.bcrypt_hash "salt" sample.t0
      sample.db0 sample_routes.reset_unknown_request
      (PasswordSuccess "new secret")
    = RouteJsError "Something went wrong".
Proof.
  apply (reset_action_unknown_email sample_routes.bcrypt_hash "salt"
           sample.t0 sample.db0 sample_routes.reset_unknown_request
           "new secret" "nobody@example.org"); [compute_done | every_row].
Defined.
